(** * codespin-cli: include expansion and the OpenAI completion client

    A shallow embedding of

    - [includeDirective] (the prompt include expander), and
    - [completion] (src/api/openai/completion.ts),

    with the properties of the specification stated over them.

    JavaScript strings are sequences of UTF-16 code units; they are modelled
    as lists of code units, each a natural number [N].  Asynchronous code is
    strictly sequential here ([await] on every call), so a promise that
    rejects is modelled as a thrown error. *)

From Stdlib Require Import String Ascii.
From Stdlib Require Import List NArith ZArith Bool Arith Lia.
Import ListNotations.

Set Implicit Arguments.
Set Warnings "-register-all".

(* ================================================================== *)
(** * JavaScript strings                                               *)
(* ================================================================== *)

Module JsString.

Definition code_unit := N.
Definition jsstring := list code_unit.

(** An ASCII literal as a JavaScript string. *)
Definition js (s : string) : jsstring :=
  map N_of_ascii (list_ascii_of_string s).

Fixpoint eqb (a b : jsstring) : bool :=
  match a, b with
  | [], [] => true
  | x :: a', y :: b' => N.eqb x y && eqb a' b'
  | _, _ => false
  end.

(** [strip_prefix p s] is [Some r] exactly when [s = p ++ r]. *)
Fixpoint strip_prefix (p s : jsstring) : option jsstring :=
  match p with
  | [] => Some s
  | x :: p' =>
      match s with
      | [] => None
      | y :: s' => if N.eqb x y then strip_prefix p' s' else None
      end
  end.

Fixpoint take_while (f : code_unit -> bool) (s : jsstring) : jsstring :=
  match s with
  | [] => []
  | c :: s' => if f c then c :: take_while f s' else []
  end.

(** The regular-expression class [\s]: WhiteSpace and LineTerminator of
    ECMAScript. *)
Definition is_space (c : code_unit) : bool :=
  ((9 <=? c) && (c <=? 13) || (c =? 32) || (c =? 160) || (c =? 5760)
   || (8192 <=? c) && (c <=? 8202) || (c =? 8232) || (c =? 8233)
   || (c =? 8239) || (c =? 8287) || (c =? 12288) || (c =? 65279))%N.

(** ** [String.prototype.indexOf] *)

Fixpoint indexOf_from (s pat : jsstring) (i : nat) : option nat :=
  match strip_prefix pat s with
  | Some _ => Some i
  | None =>
      match s with
      | [] => None
      | _ :: s' => indexOf_from s' pat (S i)
      end
  end.

Definition indexOf (s pat : jsstring) : option nat := indexOf_from s pat 0.

(** ** [String.prototype.replace] with a string pattern

    The replacement string is not inserted verbatim: GetSubstitution
    interprets [$$], [$&], [$`] and [$'] in it.  A string pattern has no
    capture groups, so [$1] ... [$99] and [$<] stand for themselves. *)

Definition dollar : code_unit := 36%N.

Fixpoint getSubstitution (matched before after repl : jsstring) : jsstring :=
  match repl with
  | [] => []
  | c :: r =>
      if N.eqb c dollar then
        match r with
        | [] => [dollar]
        | d :: r' =>
            if N.eqb d dollar then
              dollar :: getSubstitution matched before after r'
            else if N.eqb d 38 (* & *) then
              matched ++ getSubstitution matched before after r'
            else if N.eqb d 96 (* ` *) then
              before ++ getSubstitution matched before after r'
            else if N.eqb d 39 (* ' *) then
              after ++ getSubstitution matched before after r'
            else
              dollar :: getSubstitution matched before after r
        end
      else c :: getSubstitution matched before after r
  end.

(** [s.replace(pat, repl)]: only the first occurrence of [pat] in [s] is
    replaced, wherever it is. *)
Definition replace (s pat repl : jsstring) : jsstring :=
  match indexOf s pat with
  | None => s
  | Some pos =>
      let before := firstn pos s in
      let after := skipn (pos + length pat) s in
      before ++ getSubstitution pat before after repl ++ after
  end.

End JsString.
Import JsString.

(* ================================================================== *)
(** * The include pattern                                              *)
(* ================================================================== *)

Module IncludePattern.

(** The global pattern of the source: the literal [codespin:include:]
    followed by one group, a non-empty greedy run of code units that are
    neither a double quote nor white space. *)

Definition token : jsstring := Eval cbv in js "codespin:include:".

(** The class of the group: any code unit but the double quote (34) and
    white space. *)
Definition path_char (c : code_unit) : bool :=
  negb (N.eqb c 34 || is_space c).

(** The result of a successful [exec]: [index], [match[0]], [match[1]]. *)
Record RegExpMatch := {
  index : nat;
  match0 : jsstring;
  match1 : jsstring
}.

(** Does the pattern match exactly at the start of [s]?  The group is greedy
    and nothing follows it, so it takes the longest run of path characters,
    which must not be empty. *)
Definition match_here (s : jsstring) : option jsstring :=
  match strip_prefix token s with
  | None => None
  | Some rest =>
      match take_while path_char rest with
      | [] => None
      | p => Some p
      end
  end.

(** Leftmost match in [s], whose first code unit has index [i]. *)
Fixpoint search (s : jsstring) (i : nat) : option RegExpMatch :=
  match match_here s with
  | Some p => Some {| index := i; match0 := token ++ p; match1 := p |}
  | None =>
      match s with
      | [] => None
      | _ :: s' => search s' (S i)
      end
  end.

(** [includePattern.exec(s)] for the global pattern whose [lastIndex] is
    [lastIndex]: the search starts there and fails at once when [lastIndex]
    is beyond the end of [s]. *)
Definition exec (s : jsstring) (lastIndex : nat) : option RegExpMatch :=
  if length s <? lastIndex then None
  else search (skipn lastIndex s) lastIndex.

(** [lastIndex] after a successful [exec]. *)
Definition end_index (m : RegExpMatch) : nat := index m + length (match0 m).

End IncludePattern.
Import IncludePattern.

(* ================================================================== *)
(** * includeDirective                                                 *)
(* ================================================================== *)

Module Include.

(** What a call can do: return, throw an [Error] with a message, or still be
    running when the fuel of the model is used up (a cyclic include never
    returns). *)
Inductive outcome : Type :=
| Returned (contents : jsstring)
| Thrown (message : jsstring)
| OutOfFuel.

(** The collaborators of the expander that are not part of its source:
    [resolveProjectFilePath] (../fs/resolveProjectFilePath.js), [path.dirname],
    [process.cwd()] and [fs.readFile] with the utf-8 encoding.  A failing call gives
    [inl] of the error's message. *)
Record Host := {
  resolveProjectFilePath :
    jsstring (* path *) -> jsstring (* directory *) ->
    jsstring (* options.missingGit *) -> jsstring + jsstring;
  dirname : jsstring -> jsstring;
  cwd : jsstring;
  readFile : jsstring -> jsstring + jsstring
}.

Definition missingGit : jsstring := Eval cbv in
  js "The codespin:include directive referred to path relative to the project root (starting with a '/'). This is supported only in projects under git.".

(** [promptFilePath ? path.dirname(promptFilePath) : process.cwd()]:
    [undefined] and the empty string are falsy. *)
Definition originDir (h : Host) (promptFilePath : option jsstring) : jsstring :=
  match promptFilePath with
  | Some (c :: p) => dirname h (c :: p)
  | _ => cwd h
  end.

(** The message of the error thrown when the read fails. *)
Definition includeError (fullPath cause : jsstring) : jsstring :=
  js "Failed to include file from path: " ++ fullPath
  ++ js ". Error: " ++ cause.

(** The [while] loop of [includeDirective], entered with the current value
    of [contents] and of [includePattern.lastIndex].  One unit of fuel is
    spent per iteration; the recursive call on the included file starts its
    own pattern at [lastIndex = 0]. *)
Fixpoint includeLoop (h : Host) (fuel : nat) (contents : jsstring)
    (lastIndex : nat) (promptFilePath : option jsstring)
    (baseDir : jsstring) {struct fuel} : outcome :=
  match fuel with
  | O => OutOfFuel
  | S fuel' =>
      match exec contents lastIndex with
      | None => Returned contents
      | Some m =>
          let includedPath := match1 m in
          match resolveProjectFilePath h includedPath
                  (originDir h promptFilePath) missingGit with
          | inl e => Thrown e
          | inr fullPath =>
              match readFile h fullPath with
              | inl cause => Thrown (includeError fullPath cause)
              | inr includedContent =>
                  match includeLoop h fuel' includedContent 0
                          (Some fullPath) baseDir with
                  | Returned includedContent' =>
                      includeLoop h fuel'
                        (replace contents (match0 m) includedContent')
                        (end_index m) promptFilePath baseDir
                  | Thrown e => Thrown e
                  | OutOfFuel => OutOfFuel
                  end
              end
          end
      end
  end.

(** [includeDirective(contents, promptFilePath, baseDir)]: a fresh pattern
    ([lastIndex = 0]) for each call; [baseDir] defaults to the empty string
    when it is omitted. *)
Definition includeDirective (h : Host) (fuel : nat) (contents : jsstring)
    (promptFilePath : option jsstring) (baseDir : option jsstring) : outcome :=
  includeLoop h fuel contents 0 promptFilePath
    (match baseDir with Some b => b | None => [] end).

(** ** A small project on disk, used for the concrete runs below *)

(** Paths resolve to [dir/path]; every directory is [.]. *)
Definition demoFiles : list (string * string) :=
  [ ("./a.txt", "hi");
    ("./b.txt", "there");
    ("./long.txt", "a rather long line of text, longer than a directive");
    ("./nested.txt", "[ codespin:include:long.txt ]");
    ("./loop.txt", "again: codespin:include:loop.txt") ]%string.

Fixpoint lookupFile (files : list (string * string)) (p : jsstring)
  : option jsstring :=
  match files with
  | [] => None
  | (name, text) :: rest =>
      if JsString.eqb (js name) p then Some (js text) else lookupFile rest p
  end.

Definition demoHost : Host := {|
  resolveProjectFilePath := fun p dir _ => inr (dir ++ js "/" ++ p);
  dirname := fun _ => js ".";
  cwd := js ".";
  readFile := fun p =>
    match lookupFile demoFiles p with
    | Some text => inr text
    | None => inl (js "ENOENT: no such file or directory, open '" ++ p ++ js "'")
    end
|}.

(** ** Directive occurrences, stated without the matcher *)

(** [s] contains a directive: the token followed by at least one path
    character. *)
Definition has_directive (s : jsstring) : Prop :=
  exists pre c rest, s = pre ++ token ++ c :: rest /\ path_char c = true.

Definition directive_here (s : jsstring) : bool :=
  match strip_prefix token s with
  | Some (c :: _) => path_char c
  | _ => false
  end.

(** The same as a test. *)
Fixpoint contains_directive (s : jsstring) : bool :=
  directive_here s
  || match s with
     | [] => false
     | _ :: s' => contains_directive s'
     end.

End Include.
Import Include.


(* ================================================================== *)
(** * JavaScript values and the effects of the completion client       *)
(* ================================================================== *)

Module Js.

(** The values a parsed JSON document is made of, and [undefined] for a
    property that is not there.  Numbers are modelled by integers: the
    client only observes whether a number is zero. *)
Inductive value : Type :=
| VUndefined
| VNull
| VBool (b : bool)
| VNum (n : Z)
| VStr (s : jsstring)
| VArr (items : list value)
| VObj (fields : list (jsstring * value)).

(** ToBoolean. *)
Definition truthy (v : value) : bool :=
  match v with
  | VUndefined | VNull => false
  | VBool b => b
  | VNum n => negb (Z.eqb n 0)
  | VStr [] => false
  | VStr (_ :: _) => true
  | VArr _ | VObj _ => true
  end.

(** A thrown [Error] object. *)
Record Error := { error_message : jsstring }.

Inductive attempt (A : Type) : Type :=
| Done (a : A)
| Raise (e : Error).
Arguments Done {A} a.
Arguments Raise {A} e.

Fixpoint lookup (fields : list (jsstring * value)) (k : jsstring) : value :=
  match fields with
  | [] => VUndefined
  | (k', v) :: rest => if JsString.eqb k' k then v else lookup rest k
  end.

(** [v.k] for the property names the client reads ([error], [code],
    [message], [choices], [finish_reason], [content]); none of them is a
    built-in property of a string, an array, a number or a boolean.  Reading
    a property of [undefined] or [null] throws a TypeError, whose message
    [typeError v k] is the engine's. *)
Definition get (typeError : value -> jsstring -> jsstring)
    (v : value) (k : jsstring) : attempt value :=
  match v with
  | VUndefined | VNull => Raise {| error_message := typeError v k |}
  | VObj fields => Done (lookup fields k)
  | _ => Done VUndefined
  end.

(** [v[0]]: the first element of an array, the first code unit of a
    string, the property [0] of an object. *)
Definition getFirst (typeError : value -> jsstring -> jsstring)
    (v : value) : attempt value :=
  match v with
  | VUndefined | VNull => Raise {| error_message := typeError v (js "0") |}
  | VArr items =>
      Done (match items with x :: _ => x | [] => VUndefined end)
  | VStr s =>
      Done (match s with c :: _ => VStr [c] | [] => VUndefined end)
  | VObj fields => Done (lookup fields (js "0"))
  | _ => Done VUndefined
  end.

(** [v !== s] for a string literal [s]. *)
Definition strictNotEqualString (v : value) (s : jsstring) : bool :=
  match v with
  | VStr s' => negb (JsString.eqb s' s)
  | _ => true
  end.

(** A JavaScript number: a finite value [m * 2^e] (every finite double has
    this form; [Finite 0 e] is +0), -0, NaN, or an infinity. *)
Inductive number : Type :=
| Finite (m e : Z)
| NegativeZero
| NaN
| Infinity (negative : bool).

(** The number of an integer. *)
Definition ofZ (n : Z) : number := Finite n 0.

(** ToBoolean on numbers: 0, -0 and NaN are falsy, the rest is truthy. *)
Definition truthyNumber (n : number) : bool :=
  match n with
  | Finite m _ => negb (Z.eqb m 0)
  | NegativeZero | NaN => false
  | Infinity _ => true
  end.

End Js.
Import Js.

Module Completion.

(** ** Types of the client *)

(** [CompletionOptions]; [None] is an absent ([undefined]) field. *)
Record CompletionOptions := {
  model : option jsstring;
  maxTokens : option number;
  debug : option bool
}.

(** [CompletionResult]: [{ ok: true, message }] or
    [{ ok: false, error: { code, message } }].  The payload is not validated
    at run time, so the fields hold whatever values the payload had. *)
Inductive CompletionResult : Type :=
| Ok (message : value)
| Err (code message : value).

Record Message := { role : jsstring; content : jsstring }.

(** The object given to [JSON.stringify] for the request body. *)
Record RequestBody := {
  body_model : jsstring;
  messages : list Message;
  max_tokens : number;
  temperature : Z
}.

Record RequestInit := {
  method : jsstring;
  headers : list (jsstring * jsstring);
  body : RequestBody
}.

(** A [Response] is used only through [response.json()]. *)
Record Response := { json : attempt value }.

(** The process environment and the world outside the client. *)
Record World := {
  OPENAI_API_KEY : option jsstring;
  OPENAI_COMPLETIONS_ENDPOINT : option jsstring;
  fetch : jsstring -> RequestInit -> attempt Response;
  numberToString : number -> jsstring;
  stringify : value -> jsstring;
  typeError : value -> jsstring -> jsstring
}.

(** ** Effects: a trace of external calls and a possibly thrown error *)

Inductive event : Type :=
| ConsoleWrite (text : jsstring)
| FetchCall (url : jsstring) (init : RequestInit).

Definition M (A : Type) : Type := (list event * attempt A)%type.

Definition ret {A} (a : A) : M A := ([], Done a).

Definition bind {A B} (m : M A) (k : A -> M B) : M B :=
  match m with
  | (t, Done a) => let (t', r) := k a in (t ++ t', r)
  | (t, Raise e) => (t, Raise e)
  end.

(** [try { m } catch (error) { handler error }] *)
Definition try_catch {A} (m : M A) (handler : Error -> M A) : M A :=
  match m with
  | (t, Done a) => (t, Done a)
  | (t, Raise e) => let (t', r) := handler e in (t ++ t', r)
  end.

Definition lift {A} (a : attempt A) : M A := ([], a).

Definition emit (ev : event) : M unit := ([ev], Done tt).

Definition when (b : bool) (m : M unit) : M unit := if b then m else ret tt.

Definition trace {A} (m : M A) : list event := fst m.
Definition result {A} (m : M A) : attempt A := snd m.

Declare Scope client_scope.
Delimit Scope client_scope with client.
Notation "x <- m ;; k" := (bind m (fun x => k))
  (at level 61, m at next level, right associativity) : client_scope.
Notation "m ;;; k" := (bind m (fun _ => k))
  (at level 61, right associativity) : client_scope.
Open Scope client_scope.

(** Modelled from the spec: [writeToConsole] (../../writeToConsole.js) is
    not among the sources; it is the logging collaborator of section 4.2, an
    observability hook that only emits its text. *)
Definition writeToConsole (text : jsstring) : M unit :=
  emit (ConsoleWrite text).

(** ** The operator [||] at the types it is used at *)

Definition orString (a : option jsstring) (b : jsstring) : jsstring :=
  match a with
  | Some (c :: s) => c :: s
  | _ => b
  end.

Definition orNumber (a : option number) (b : number) : number :=
  match a with
  | Some n => if truthyNumber n then n else b
  | None => b
  end.

(** [Boolean(options.debug)] *)
Definition toBoolean (a : option bool) : bool :=
  match a with
  | Some b => b
  | None => false
  end.

(** ** completion *)

(** [options.model || "gpt-3.5-turbo"] *)
Definition defaultedModel (options : CompletionOptions) : jsstring :=
  orString (model options) (js "gpt-3.5-turbo").

(** [options.maxTokens || 4000 - prompt.length] *)
Definition defaultedMaxTokens (prompt : jsstring)
    (options : CompletionOptions) : number :=
  orNumber (maxTokens options) (ofZ (4000 - Z.of_nat (length prompt))).

(** [OPENAI_COMPLETIONS_ENDPOINT || "https://api.openai.com/v1/chat/completions"] *)
Definition endpoint (w : World) : jsstring :=
  orString (OPENAI_COMPLETIONS_ENDPOINT w)
    (js "https://api.openai.com/v1/chat/completions").

(** The second argument of [fetch]. *)
Definition request (key prompt : jsstring) (options : CompletionOptions)
  : RequestInit :=
  {| method := js "POST";
     headers := [ (js "Content-Type", js "application/json");
                  (js "Authorization", js "Bearer " ++ key) ];
     body := {| body_model := defaultedModel options;
                messages := [ {| role := js "user"; content := prompt |} ];
                max_tokens := defaultedMaxTokens prompt options;
                temperature := 0 |} |}.

Definition missingKeyMessage : jsstring :=
  js "OPENAI_API_KEY is not set in the environment variables.".

Definition fetchFallbackMessage : jsstring :=
  js "An error occurred while fetching the completion.".

(** The [catch] block: [error.message || <fallback>]. *)
Definition fetchError (error : Error) : CompletionResult :=
  Err (VStr (js "fetch_error"))
      (VStr (orString (Some (error_message error)) fetchFallbackMessage)).

(** The statements after [response.json()] inside the [try] block. *)
Definition interpret (w : World) (dbg : bool) (data : value)
  : M CompletionResult :=
  when dbg
    (writeToConsole (js "---OPENAI RESPONSE---") ;;;
     writeToConsole (stringify w (VObj [(js "data", data)]))) ;;;
  error <- lift (get (typeError w) data (js "error")) ;;
  if truthy error then
    code <- lift (get (typeError w) error (js "code")) ;;
    message <- lift (get (typeError w) error (js "message")) ;;
    ret (Err code message)
  else
    choices <- lift (get (typeError w) data (js "choices")) ;;
    choice <- lift (getFirst (typeError w) choices) ;;
    finish_reason <- lift (get (typeError w) choice (js "finish_reason")) ;;
    if strictNotEqualString finish_reason (js "stop") then
      ret (Err finish_reason finish_reason)
    else
      message <- lift (get (typeError w) choice (js "message")) ;;
      content <- lift (get (typeError w) message (js "content")) ;;
      ret (Ok content).

Definition completion (w : World) (prompt : jsstring)
    (options : CompletionOptions) : M CompletionResult :=
  let model := defaultedModel options in
  let maxTokens := defaultedMaxTokens prompt options in
  let debug := toBoolean (debug options) in
  when debug
    (writeToConsole (js "OPENAI: model=" ++ model) ;;;
     writeToConsole (js "OPENAI: maxTokens=" ++ numberToString w maxTokens)) ;;;
  match OPENAI_API_KEY w with
  | Some (c :: k) =>
      let key := c :: k in
      try_catch
        (emit (FetchCall (endpoint w) (request key prompt options)) ;;;
         response <- lift (fetch w (endpoint w) (request key prompt options)) ;;
         data <- lift (json response) ;;
         interpret w debug data)
        (fun error => ret (fetchError error))
  | _ =>
      (* undefined or the empty string *)
      ret (Err (VStr (js "missing_api_key")) (VStr missingKeyMessage))
  end.

(** ** Reading the payload, for the statements below *)

(** [data.error] *)
Definition providerError (w : World) (data : value) : attempt value :=
  get (typeError w) data (js "error").

(** [data.choices[0]] *)
Definition firstChoice (w : World) (data : value) : attempt value :=
  match get (typeError w) data (js "choices") with
  | Done choices => getFirst (typeError w) choices
  | Raise e => Raise e
  end.

(** A concrete world: the key is set and the provider answers with one
    choice whose text is [text] and whose finish reason is [reason]. *)
Definition answer (reason text : string) : value :=
  VObj [ (js "choices",
          VArr [ VObj [ (js "message", VObj [ (js "content", VStr (js text)) ]);
                        (js "finish_reason", VStr (js reason)) ] ]) ].

Definition demoWorld (key : option jsstring) (reply : attempt Response)
  : World :=
  {| OPENAI_API_KEY := key;
     OPENAI_COMPLETIONS_ENDPOINT := None;
     fetch := fun _ _ => reply;
     numberToString := fun n =>
       match n with
       | Finite m 0 => if Z.eqb m 3500 then js "3500" else js "n"
       | NaN => js "NaN"
       | _ => js "n"
       end;
     stringify := fun _ => js "{}";
     typeError := fun _ k => js "Cannot read properties of undefined: " ++ k |}.

Definition demoKey : jsstring := Eval cbv in js "sk-test".

Definition truncated : World :=
  demoWorld (Some demoKey)
    (Done {| json := Done (answer "length" "def f(x):") |}).

Definition offline : World :=
  demoWorld (Some demoKey)
    (Raise {| error_message := js "fetch failed" |}).

Definition noKey : World :=
  demoWorld None (Done {| json := Done (answer "stop" "never asked") |}).

Definition plainOptions : CompletionOptions :=
  {| model := None; maxTokens := None; debug := Some true |}.

Definition falsyOptions : CompletionOptions :=
  {| model := Some []; maxTokens := Some (ofZ 0); debug := None |}.

(** The same with the debug lines. *)
Definition falsyDebugOptions : CompletionOptions :=
  {| model := Some []; maxTokens := Some NaN; debug := Some true |}.

Definition prompt500 : jsstring := repeat 120%N 500.

End Completion.
Import Completion.

(** ** Observations on a trace *)

(** The [fetch] calls of a trace, in order. *)
Definition fetchCalls (t : list event) : list (jsstring * RequestInit) :=
  flat_map (fun ev => match ev with
                      | FetchCall url init => [(url, init)]
                      | ConsoleWrite _ => []
                      end) t.

(** A project like the small one, with one more file that includes a file
    that is not there. *)
Definition brokenHost : Host := {|
  resolveProjectFilePath := fun p dir _ => inr (dir ++ js "/" ++ p);
  dirname := fun _ => js ".";
  cwd := js ".";
  readFile := fun p =>
    match lookupFile (("./broken.txt", "see codespin:include:missing.txt")%string
                      :: demoFiles) p with
    | Some text => inr text
    | None => inl (js "ENOENT: no such file or directory, open '" ++ p ++ js "'")
    end
|}.

(** A project under no version control: paths from the project root cannot
    be resolved. *)
Definition noGitHost : Host := {|
  resolveProjectFilePath := fun p dir missing =>
    match p with
    | 47%N :: _ => inl missing
    | _ => inr (dir ++ js "/" ++ p)
    end;
  dirname := fun _ => js ".";
  cwd := js ".";
  readFile := fun p => inl (js "ENOENT")
|}.

(** No dollar sign in a text. *)
Definition dollarFree (s : jsstring) : bool :=
  forallb (fun c => negb (N.eqb c dollar)) s.

(* ================================================================== *)
(** * The generate command                                             *)
(* ================================================================== *)

(** ** Effects of a command: a trace of calls and a possibly thrown error *)

Module Effects.

Definition T (E A : Type) : Type := (list E * attempt A)%type.

Definition ret {E A} (a : A) : T E A := ([], Done a).

Definition bind {E A B} (m : T E A) (k : A -> T E B) : T E B :=
  match m with
  | (t, Done a) => let (t', r) := k a in (t ++ t', r)
  | (t, Raise e) => (t, Raise e)
  end.

(** The result of an awaited call that leaves nothing in the trace. *)
Definition call {E A} (a : attempt A) : T E A := ([], a).

Definition emit {E} (ev : E) : T E unit := ([ev], Done tt).

(** [throw new Error(message)] *)
Definition throw {E A} (message : jsstring) : T E A :=
  ([], Raise {| error_message := message |}).

Definition when {E} (b : bool) (m : T E unit) : T E unit :=
  if b then m else ret tt.

(** [for (const x of xs) body x] *)
Fixpoint forEach {E A} (xs : list A) (body : A -> T E unit) : T E unit :=
  match xs with
  | [] => ret tt
  | x :: rest => bind (body x) (fun _ => forEach rest body)
  end.

Definition trace {E A} (m : T E A) : list E := fst m.
Definition result {E A} (m : T E A) : attempt A := snd m.

(** Every call in the trace of [m] satisfies [P]. *)
Definition always {E A} (P : E -> Prop) (m : T E A) : Prop :=
  forall ev, In ev (trace m) -> P ev.

End Effects.

Module Generate.
Import Effects.

Declare Scope generate_scope.
Delimit Scope generate_scope with generate.
Notation "x <- m ;; k" := (Effects.bind m (fun x => k))
  (at level 61, m at next level, right associativity) : generate_scope.
Notation "m ;;; k" := (Effects.bind m (fun _ => k))
  (at level 61, right associativity) : generate_scope.
Local Open Scope generate_scope.

(** ** Pure helpers of generate.ts *)

(** [xs.includes(x)] on strings. *)
Definition includes (xs : list jsstring) (x : jsstring) : bool :=
  existsb (JsString.eqb x) xs.

(** [new Set(arr)]: the elements in the order of their first insertion. *)
Fixpoint addAll (set arr : list jsstring) : list jsstring :=
  match arr with
  | [] => set
  | x :: rest => addAll (if includes set x then set else set ++ [x]) rest
  end.

(** [removeDuplicates(arr)], that is [[...new Set(arr)]]. *)
Definition removeDuplicates (arr : list jsstring) : list jsstring :=
  addAll [] arr.

(** [a || []] for an optional array: every array is truthy. *)
Definition orEmpty (a : option (list jsstring)) : list jsstring :=
  match a with
  | Some xs => xs
  | None => []
  end.

(** The truthy string of an optional string, if any. *)
Definition truthyString (a : option jsstring) : option jsstring :=
  match a with
  | Some (c :: s) => Some (c :: s)
  | _ => None
  end.

(** [a || b] where [b] may itself be absent. *)
Definition orElse {A} (truthy : A -> bool) (a b : option A) : option A :=
  match a with
  | Some x => if truthy x then a else b
  | None => b
  end.

Definition nonEmpty (s : jsstring) : bool :=
  match s with [] => false | _ :: _ => true end.

(** [xs.join(sep)] *)
Fixpoint join (sep : jsstring) (xs : list jsstring) : jsstring :=
  match xs with
  | [] => []
  | [x] => x
  | x :: rest => x ++ sep ++ join sep rest
  end.

(** The files to include: the includes of the prompt settings, then those of
    the command line, without duplicates and without the excluded ones. *)
Definition filesToInclude (settingsInclude argsInclude argsExclude
                           : option (list jsstring)) : list jsstring :=
  filter (fun x => negb (includes (orEmpty argsExclude) x))
    (removeDuplicates (orEmpty settingsInclude ++ orEmpty argsInclude)).

(** *** Single-file prompts *)

(** The class of letters and digits of the pattern. *)
Definition isAlnum (c : code_unit) : bool :=
  ((48 <=? c) && (c <=? 57) || (65 <=? c) && (c <=? 90)
   || (97 <=? c) && (c <=? 122))%N.

Definition promptSuffix : jsstring := Eval cbv in js ".prompt.md".

(** [s] without the suffix [suffix], when it ends with it. *)
Definition stripSuffix (suffix s : jsstring) : option jsstring :=
  match strip_prefix (rev suffix) (rev s) with
  | Some r => Some (rev r)
  | None => None
  end.

(** The test of the pattern for single-file prompts: the text ends with a
    dot, one or more letters or digits, and [.prompt.md].  A dot is not a
    letter or digit, so the extension is the whole run of letters and
    digits before the suffix. *)
Definition singleFilePattern (s : jsstring) : bool :=
  match strip_prefix (rev promptSuffix) (rev s) with
  | None => false
  | Some r =>
      match take_while isAlnum r with
      | [] => false
      | ext =>
          match skipn (length ext) r with
          | c :: _ => N.eqb c 46
          | [] => false
          end
      end
  end.

(** [s.replace(<.prompt.md at the end>, <empty string>)] *)
Definition removePromptSuffix (s : jsstring) : jsstring :=
  match stripSuffix promptSuffix s with
  | Some stem => stem
  | None => s
  end.

(** ** Types *)

Module Args.
(** [GenerateArgs] *)
Record t := {
  promptFile : option jsstring;
  prompt : option jsstring;
  api : option jsstring;
  model : option jsstring;
  maxTokens : option number;
  write : option bool;
  printPrompt : option bool;
  writePrompt : option jsstring;
  template : option jsstring;
  debug : option bool;
  exec : option jsstring;
  config : option jsstring;
  include : option (list jsstring);
  exclude : option (list jsstring);
  baseDir : option jsstring;
  multi : option bool
}.
End Args.

Module Config.
(** What generate reads of the configuration file. *)
Record t := { model : option jsstring; maxTokens : option number }.
End Config.

Module PromptSettings.
(** What generate reads of the settings of a prompt file. *)
Record t := {
  model : option jsstring;
  maxTokens : option number;
  include : option (list jsstring)
}.
(** The object literal without properties. *)
Definition empty : t := {| model := None; maxTokens := None; include := None |}.
End PromptSettings.

(** [FileContent] *)
Record FileContent := {
  name : jsstring;
  contents : option jsstring;
  previousContents : option jsstring
}.

(** The argument of [evaluateTemplate]. *)
Record TemplateArgs := {
  t_prompt : jsstring;
  t_promptWithLineNumbers : jsstring;
  t_previousPrompt : option jsstring;
  t_previousPromptWithLineNumbers : option jsstring;
  t_promptDiff : option jsstring;
  t_files : list FileContent;
  t_sourceFile : option FileContent;
  t_multi : option bool
}.

Record GeneratedFile := { file_name : jsstring; file_contents : jsstring }.

(** The completion result as generate.ts reads it: [ok] with [files], or an
    [error] with [code] and [message]. *)
Inductive CompletionResult : Type :=
| Files (files : list GeneratedFile)
| Failure (code message : jsstring).

(** An element of the result of [extractFilesToDisk]. *)
Record Extracted := { generated : bool; file : jsstring }.

(** The collaborators of generate.ts, none of which is among the sources.
    An awaited call may fail.  [openaiCompletion] is the completion function
    as generate.ts calls it, with four arguments. *)
Record Env := {
  resolve : list jsstring -> jsstring;
  dirname : jsstring -> jsstring;
  pathJoin : list jsstring -> jsstring;
  cwd : jsstring;
  thisFile : jsstring;
  pathExists : jsstring -> attempt bool;
  readConfig : jsstring -> attempt (option Config.t);
  readPromptSettings : jsstring -> attempt (option PromptSettings.t);
  getFileContent : jsstring -> attempt (option FileContent);
  readFile : jsstring -> attempt jsstring;
  removeFrontMatter : jsstring -> jsstring;
  addLineNumbers : jsstring -> jsstring;
  exception : jsstring -> attempt jsstring;
  isCommitted : jsstring -> attempt bool;
  getFileFromCommit : jsstring -> attempt (option jsstring);
  getDiff : jsstring -> jsstring -> jsstring -> attempt jsstring;
  evaluateTemplate : jsstring -> TemplateArgs -> attempt jsstring;
  writeToFile : jsstring -> jsstring -> attempt unit;
  openaiCompletion :
    jsstring -> option jsstring -> option number -> option bool ->
    attempt CompletionResult;
  extractFilesToDisk :
    jsstring -> CompletionResult -> option jsstring ->
    attempt (list Extracted);
  destructuringError : jsstring
}.

(** The calls of generate that act on the outside. *)
Inductive effect : Type :=
| WriteToConsole (text : option jsstring)
| WriteToFile (path contents : jsstring)
| Exception (message : jsstring)
| Completion (prompt : jsstring) (model : option jsstring)
    (maxTokens : option number) (debug : option bool)
| ExtractFilesToDisk (baseDir : jsstring) (completionResult : CompletionResult)
    (exec : option jsstring).

Definition G (A : Type) : Type := Effects.T effect A.

(** Modelled from the spec: [writeToConsole] (../writeToConsole.js) is not
    among the sources; it is console output, outside the core, and only
    emits its text. *)
Definition writeToConsole (text : option jsstring) : G unit :=
  emit (WriteToConsole text).

(** [exception(message)] used as an expression. *)
Definition callException (env : Env) (message : jsstring) : G jsstring :=
  emit (Exception message) ;;; call (exception env message).

(** [await Promise.all(xs.map(f))]: the results in the order of [xs]; when
    calls fail, the error of the first failing one in that order. *)
Fixpoint promiseAll {A} (calls : list (attempt A)) : attempt (list A) :=
  match calls with
  | [] => Done []
  | Done x :: rest =>
      match promiseAll rest with
      | Done xs => Done (x :: xs)
      | Raise e => Raise e
      end
  | Raise e :: _ => Raise e
  end.

(** ** generate, up to the evaluated prompt *)

(** What the second half of [generate] uses of the first. *)
Record Prepared := {
  config : option Config.t;
  promptFileDir : option jsstring;
  promptSettings : option PromptSettings.t;
  evaluatedPrompt : jsstring
}.

(** The source file of a single-file prompt, if there is one. *)
Definition findSourceFileName (env : Env) (args : Args.t)
  : G (option jsstring) :=
  match Args.promptFile args with
  | Some promptFile =>
      if singleFilePattern promptFile then
        if negb (toBoolean (Args.multi args)) then
          let sourceFileName := removePromptSuffix promptFile in
          sourceFileExists <- call (pathExists env sourceFileName) ;;
          if sourceFileExists then ret (Some sourceFileName) else ret None
        else ret None
      else ret None
  | None => ret None
  end.

(** The template to use: the one given, the one of the project, or the
    built-in one. *)
Definition findTemplatePath (env : Env) (args : Args.t)
  : G (option jsstring) :=
  given <- match truthyString (Args.template args) with
           | Some template => call (pathExists env template)
           | None => ret false
           end ;;
  if given then
    ret (match Args.template args with
         | Some template => Some (resolve env [template])
         | None => None
         end)
  else
    let projectTemplate :=
      resolve env [ js "codespin/templates";
                    orString (Args.template args) (js "default.mjs") ] in
    inProject <- call (pathExists env projectTemplate) ;;
    if inProject then ret (Some projectTemplate)
    else
      let __filename := thisFile env in
      let builtInTemplatesDir :=
        pathJoin env [__filename; js "../../templates"] in
      let builtInTemplatePath :=
        resolve env [builtInTemplatesDir; js "default.js"] in
      builtIn <- call (pathExists env builtInTemplatePath) ;;
      ret (if builtIn then Some builtInTemplatePath else None).

(** A template literal prints an absent value as [undefined]. *)
Definition display (a : option jsstring) : jsstring :=
  match a with
  | Some s => s
  | None => js "undefined"
  end.

Definition prepare (env : Env) (args : Args.t) : G Prepared :=
  let configFile :=
    resolve env [orString (Args.config args) (js "codespin.json")] in
  configExists <- call (pathExists env configFile) ;;
  config <- (if configExists then call (readConfig env configFile)
             else ret None) ;;
  let promptFileDir :=
    match truthyString (Args.promptFile args) with
    | Some promptFile => Some (dirname env promptFile)
    | None => None
    end in
  promptSettings <-
    match truthyString (Args.promptFile args) with
    | Some promptFile => call (readPromptSettings env promptFile)
    | None => ret (Some PromptSettings.empty)
    end ;;
  sourceFileName <- findSourceFileName env args ;;
  sourceFile <-
    match truthyString sourceFileName with
    | Some sourceFileName =>
        if negb (includes (orEmpty (Args.exclude args)) sourceFileName)
        then call (getFileContent env sourceFileName)
        else ret None
    | None => ret None
    end ;;
  let filesToInclude :=
    filesToInclude
      (match promptSettings with
       | Some settings => PromptSettings.include settings
       | None => None
       end)
      (Args.include args) (Args.exclude args) in
  includedFilesOrNothing <-
    call (promiseAll (map (getFileContent env) filesToInclude)) ;;
  let includedFiles :=
    filter (fun x =>
              match truthyString (contents x) with
              | Some _ => true
              | None =>
                  match truthyString (previousContents x) with
                  | Some _ => true
                  | None => false
                  end
              end)
      (flat_map (fun x => match x with Some f => [f] | None => [] end)
         includedFilesOrNothing) in
  prompt <-
    match truthyString (Args.promptFile args) with
    | Some promptFile =>
        text <- call (readFile env promptFile) ;;
        ret (removeFrontMatter env text)
    | None =>
        match truthyString (Args.prompt args) with
        | Some prompt => ret prompt
        | None =>
            callException env
              (js "The prompt file must be specified. See 'codespin generate help'.")
        end
    end ;;
  let promptWithLineNumbers := addLineNumbers env prompt in
  isPromptFileCommitted <-
    match truthyString (Args.promptFile args) with
    | Some promptFile => call (isCommitted env promptFile)
    | None => ret false
    end ;;
  previous <-
    (if isPromptFileCommitted then
       match truthyString (Args.promptFile args) with
       | Some promptFile =>
           fileFromCommit <- call (getFileFromCommit env promptFile) ;;
           let previousPrompt :=
             option_map (removeFrontMatter env) fileFromCommit in
           let previousPromptWithLineNumbers :=
             option_map (addLineNumbers env) previousPrompt in
           promptDiff <-
             match previousPrompt with
             | Some previousPrompt =>
                 diff <- call (getDiff env prompt previousPrompt promptFile) ;;
                 ret (Some diff)
             | None => ret None
             end ;;
           ret (previousPrompt, previousPromptWithLineNumbers, promptDiff)
       | None =>
           (* the function ends without a value, which cannot be
              destructured *)
           callException env (js "invariant exception: missing prompt file") ;;;
           throw (destructuringError env)
       end
     else ret (Some [], Some [], Some [])) ;;
  templatePath <- findTemplatePath env args ;;
  match truthyString templatePath with
  | None =>
      throw (js "The template " ++ display templatePath
             ++ js " was not found. Have you done 'codespin init'?")
  | Some templatePath =>
      evaluatedPrompt <-
        call (evaluateTemplate env templatePath
                {| t_prompt := prompt;
                   t_promptWithLineNumbers := promptWithLineNumbers;
                   t_previousPrompt := fst (fst previous);
                   t_previousPromptWithLineNumbers := snd (fst previous);
                   t_promptDiff := snd previous;
                   t_files := includedFiles;
                   t_sourceFile := sourceFile;
                   t_multi := Args.multi args |}) ;;
      ret {| config := config;
             promptFileDir := promptFileDir;
             promptSettings := promptSettings;
             evaluatedPrompt := evaluatedPrompt |}
  end.

(** ** generate, from the evaluated prompt on *)

(** The console output for one generated file when nothing is written. *)
Definition printFile (f : GeneratedFile) : G unit :=
  let header := js "FILE: " ++ file_name f in
  writeToConsole (Some header) ;;;
  writeToConsole (Some (repeat 45%N (length header))) ;;;
  writeToConsole (Some (file_contents f)) ;;;
  writeToConsole None.

(** The [else] branch of [completionResult.ok]. *)
Definition failureMessage (code message : jsstring) : jsstring :=
  if JsString.eqb code (js "length") then
    js "Ran out of tokens. Increase token size by specifying the --max-tokens argument."
  else code ++ js ": " ++ message.

(** [args.model || promptSettings?.model || config?.model] *)
Definition chooseModel (args : Args.t) (p : Prepared) : option jsstring :=
  orElse nonEmpty
    (orElse nonEmpty (Args.model args)
       (match promptSettings p with
        | Some settings => PromptSettings.model settings
        | None => None
        end))
    (match config p with
     | Some config => Config.model config
     | None => None
     end).

(** [args.maxTokens || promptSettings?.maxTokens || config?.maxTokens] *)
Definition chooseMaxTokens (args : Args.t) (p : Prepared)
  : option number :=
  orElse truthyNumber
    (orElse truthyNumber (Args.maxTokens args)
       (match promptSettings p with
        | Some settings => PromptSettings.maxTokens settings
        | None => None
        end))
    (match config p with
     | Some config => Config.maxTokens config
     | None => None
     end).

(** [args.baseDir || promptFileDir || process.cwd()] *)
Definition chooseBaseDir (env : Env) (args : Args.t) (p : Prepared)
  : jsstring :=
  match truthyString (Args.baseDir args) with
  | Some baseDir => baseDir
  | None =>
      match truthyString (promptFileDir p) with
      | Some promptFileDir => promptFileDir
      | None => cwd env
      end
  end.

(** [args.api !== "openai"] *)
Definition notOpenai (api : option jsstring) : bool :=
  match api with
  | Some api => negb (JsString.eqb api (js "openai"))
  | None => true
  end.

(** [args.printPrompt || typeof args.writePrompt !== "undefined"] *)
Definition promptOnly (args : Args.t) : bool :=
  toBoolean (Args.printPrompt args)
  || match Args.writePrompt args with Some _ => true | None => false end.

Definition deliver (env : Env) (args : Args.t) (p : Prepared) : G unit :=
  let evaluatedPrompt := evaluatedPrompt p in
  when (toBoolean (Args.debug args))
    (writeToConsole (Some (js "--- PROMPT ---")) ;;;
     writeToConsole (Some evaluatedPrompt)) ;;;
  if promptOnly args then
    when (toBoolean (Args.printPrompt args))
      (writeToConsole (Some evaluatedPrompt)) ;;;
    match Args.writePrompt args with
    | Some [] =>
        throw (js "Specify a file path for the --write-prompt parameter.")
    | Some writePrompt =>
        emit (WriteToFile writePrompt evaluatedPrompt) ;;;
        call (writeToFile env writePrompt evaluatedPrompt) ;;;
        writeToConsole (Some (js "Wrote prompt to " ++ writePrompt))
    | None => ret tt
    end
  else
    let model := chooseModel args p in
    let maxTokens := chooseMaxTokens args p in
    if notOpenai (Args.api args) then
      throw (js "Invalid API specified. Only 'openai' is supported currently.")
    else
      emit (Completion evaluatedPrompt model maxTokens (Args.debug args)) ;;;
      completionResult <-
        call (openaiCompletion env evaluatedPrompt model maxTokens
                (Args.debug args)) ;;
      match completionResult with
      | Files files =>
          if toBoolean (Args.write args) then
            let baseDir := chooseBaseDir env args p in
            emit (ExtractFilesToDisk baseDir completionResult
                    (Args.exec args)) ;;;
            extractResult <-
              call (extractFilesToDisk env baseDir completionResult
                      (Args.exec args)) ;;
            let generatedFiles := filter generated extractResult in
            let skippedFiles :=
              filter (fun x => negb (generated x)) extractResult in
            when (match generatedFiles with [] => false | _ => true end)
              (writeToConsole
                 (Some (js "Generated "
                        ++ join (js ", ") (map file generatedFiles)
                        ++ js "."))) ;;;
            when (match skippedFiles with [] => false | _ => true end)
              (writeToConsole
                 (Some (js "Skipped "
                        ++ join (js ", ") (map file skippedFiles)
                        ++ js ".")))
          else forEach files printFile
      | Failure code message => throw (failureMessage code message)
      end.

Definition generate (env : Env) (args : Args.t) : G unit :=
  p <- prepare env args ;; deliver env args p.

(** ** Statements about the calls of a run *)

Definition noPromptMessage : jsstring :=
  js "The prompt file must be specified. See 'codespin generate help'.".

Definition invariantMessage : jsstring :=
  js "invariant exception: missing prompt file".

(** The circumstances of each call made after the prompt [p] has been
    evaluated. *)
Definition deliverCall (env : Env) (args : Args.t) (p : Prepared)
    (ev : effect) : Prop :=
  match ev with
  | WriteToConsole _ => True
  | Exception _ => False
  | WriteToFile path text =>
      Args.writePrompt args = Some path /\ path <> []
      /\ text = evaluatedPrompt p
  | Completion prompt model maxTokens debug =>
      promptOnly args = false /\ notOpenai (Args.api args) = false
      /\ prompt = evaluatedPrompt p
      /\ model = chooseModel args p
      /\ maxTokens = chooseMaxTokens args p
      /\ debug = Args.debug args
  | ExtractFilesToDisk baseDir completionResult exec =>
      promptOnly args = false /\ notOpenai (Args.api args) = false
      /\ toBoolean (Args.write args) = true
      /\ baseDir = chooseBaseDir env args p
      /\ exec = Args.exec args
      /\ (exists files, completionResult = Files files)
      /\ openaiCompletion env (evaluatedPrompt p) (chooseModel args p)
           (chooseMaxTokens args p) (Args.debug args)
         = Done completionResult
  end.

(** ** A small setting for concrete runs *)

(** Every path exists, nothing is committed, the template returns the
    prompt, and the completion gives [reply]. *)
Definition demoEnv (reply : attempt CompletionResult) : Env := {|
  resolve := join (js "/");
  dirname := fun _ => js ".";
  pathJoin := join (js "/");
  cwd := js "/work";
  thisFile := js "/app/dist/commands/generate.js";
  pathExists := fun _ => Done true;
  readConfig := fun _ =>
    Done (Some {| Config.model := Some (js "gpt-4");
                  Config.maxTokens := Some (ofZ 800) |});
  readPromptSettings := fun _ => Done (Some PromptSettings.empty);
  getFileContent := fun n =>
    Done (Some {| name := n; contents := Some (js "text");
                  previousContents := None |});
  readFile := fun _ => Done (js "prompt text");
  removeFrontMatter := fun s => s;
  addLineNumbers := fun s => s;
  exception := fun message => Raise {| error_message := message |};
  isCommitted := fun _ => Done false;
  getFileFromCommit := fun _ => Done None;
  getDiff := fun _ _ _ => Done [];
  evaluateTemplate := fun _ t => Done (t_prompt t);
  writeToFile := fun _ _ => Done tt;
  openaiCompletion := fun _ _ _ _ => reply;
  extractFilesToDisk := fun _ r _ =>
    Done (match r with
          | Files files =>
              map (fun f => {| generated := true; file := file_name f |}) files
          | Failure _ _ => []
          end);
  destructuringError := js "Cannot destructure 'undefined'."
|}.

(** [codespin generate --prompt "Write f" --api openai], with the switches
    given. *)
Definition demoArgs (api : option jsstring) (write : option bool)
    (writePrompt : option jsstring) : Args.t := {|
  Args.promptFile := None;
  Args.prompt := Some (js "Write f");
  Args.api := api;
  Args.model := None;
  Args.maxTokens := None;
  Args.write := write;
  Args.printPrompt := None;
  Args.writePrompt := writePrompt;
  Args.template := None;
  Args.debug := None;
  Args.exec := None;
  Args.config := None;
  Args.include := None;
  Args.exclude := None;
  Args.baseDir := None;
  Args.multi := None
|}.

Definition oneFile : CompletionResult :=
  Files [ {| file_name := js "f.ts"; file_contents := js "export {}" |} ].

(** [codespin generate --prompt "Write f" --print-prompt --write] *)
Definition printPromptArgs : Args.t := {|
  Args.promptFile := None;
  Args.prompt := Some (js "Write f");
  Args.api := None;
  Args.model := None;
  Args.maxTokens := None;
  Args.write := Some true;
  Args.printPrompt := Some true;
  Args.writePrompt := None;
  Args.template := None;
  Args.debug := None;
  Args.exec := None;
  Args.config := None;
  Args.include := None;
  Args.exclude := None;
  Args.baseDir := None;
  Args.multi := None
|}.

(** What [demoEnv] prepares for the prompt [Write f]. *)
Definition demoPrepared : Prepared := {|
  config := Some {| Config.model := Some (js "gpt-4");
                    Config.maxTokens := Some (ofZ 800) |};
  promptFileDir := None;
  promptSettings := Some PromptSettings.empty;
  evaluatedPrompt := js "Write f"
|}.

(** [codespin generate src/f.ts.prompt.md], the source file being there. *)
Definition singleFileArgs : Args.t := {|
  Args.promptFile := Some (js "src/f.ts.prompt.md");
  Args.prompt := None;
  Args.api := Some (js "openai");
  Args.model := None;
  Args.maxTokens := None;
  Args.write := None;
  Args.printPrompt := None;
  Args.writePrompt := None;
  Args.template := None;
  Args.debug := None;
  Args.exec := None;
  Args.config := None;
  Args.include := None;
  Args.exclude := None;
  Args.baseDir := None;
  Args.multi := None
|}.

End Generate.

(* ================================================================== *)
(** * Properties of the string operations                              *)
(* ================================================================== *)

Lemma eqb_eq (a b : jsstring) : JsString.eqb a b = true <-> a = b.
Proof.
  revert b; induction a as [|x a IH]; intros [|y b]; simpl;
    try (split; [discriminate | discriminate]); try tauto.
  rewrite andb_true_iff, N.eqb_eq, IH. split.
  - intros [-> ->]; reflexivity.
  - intros H; injection H; auto.
Qed.

Lemma strip_prefix_Some (p s r : jsstring) :
  strip_prefix p s = Some r -> s = p ++ r.
Proof.
  revert s; induction p as [|x p IH]; intros s; simpl.
  - intros H; injection H; auto.
  - destruct s as [|y s]; [discriminate|].
    destruct (N.eqb x y) eqn:E; [|discriminate].
    apply N.eqb_eq in E; subst y. intros H; rewrite (IH _ H); reflexivity.
Qed.

Lemma strip_prefix_app (p r : jsstring) : strip_prefix p (p ++ r) = Some r.
Proof.
  induction p as [|x p IH]; simpl; [reflexivity|].
  rewrite N.eqb_refl; exact IH.
Qed.

Lemma take_while_nil (f : code_unit -> bool) (s : jsstring) :
  take_while f s = [] <-> match s with [] => True | c :: _ => f c = false end.
Proof.
  destruct s as [|c s]; simpl; [tauto|].
  destruct (f c); split; intros; try discriminate; reflexivity.
Qed.

Lemma take_while_prefix (f : code_unit -> bool) (s : jsstring) :
  exists post, s = take_while f s ++ post.
Proof.
  induction s as [|x s [post IH]]; simpl.
  - exists []; reflexivity.
  - destruct (f x); [|exists (x :: s); reflexivity].
    exists post. simpl. f_equal. exact IH.
Qed.

(** A successful match at the start of [s], spelled out. *)
Lemma match_here_Some (s p : jsstring) :
  match_here s = Some p ->
  (exists post, s = token ++ p ++ post)
  /\ exists x p', p = x :: p' /\ path_char x = true.
Proof.
  unfold match_here.
  destruct (strip_prefix token s) as [rest|] eqn:E; [|discriminate].
  apply strip_prefix_Some in E.
  destruct (take_while_prefix path_char rest) as [post Hpost].
  destruct (take_while path_char rest) as [|x p'] eqn:T; [discriminate|].
  intros H; injection H as <-. split.
  - exists post. rewrite E, Hpost. reflexivity.
  - exists x, p'. split; [reflexivity|].
    destruct rest as [|y rest]; [discriminate T|]. simpl in T.
    destruct (path_char y) eqn:Hy; [|discriminate T].
    injection T as -> _. exact Hy.
Qed.

Lemma match_here_None (s : jsstring) :
  match_here s = None <-> directive_here s = false.
Proof.
  unfold match_here, directive_here.
  destruct (strip_prefix token s) as [rest|]; [|tauto].
  destruct rest as [|c rest]; simpl; [tauto|].
  destruct (path_char c); split; intros; try discriminate; reflexivity.
Qed.

#[local] Arguments match_here : simpl never.
#[local] Arguments directive_here : simpl never.

Lemma search_None (s : jsstring) (i : nat) :
  search s i = None <-> contains_directive s = false.
Proof.
  revert i; induction s as [|c s IH]; intros i; simpl.
  - split; reflexivity.
  - rewrite orb_false_iff, <- match_here_None, <- (IH (S i)).
    destruct (match_here (c :: s)); split; try tauto; try discriminate.
    intros [H _]; discriminate.
Qed.

Lemma directive_here_true (s : jsstring) :
  directive_here s = true <->
  exists c rest, s = token ++ c :: rest /\ path_char c = true.
Proof.
  unfold directive_here. split.
  - destruct (strip_prefix token s) as [[|c rest]|] eqn:E; try discriminate.
    intros H. exists c, rest. split; [apply strip_prefix_Some; exact E | exact H].
  - intros (c & rest & -> & H). rewrite strip_prefix_app. exact H.
Qed.

(** The test decides the declarative notion. *)
Lemma contains_directive_spec (s : jsstring) :
  contains_directive s = true <-> has_directive s.
Proof.
  induction s as [|x s IH]; simpl.
  - split; [discriminate|].
    intros (pre & c & rest & H & _). destruct pre; discriminate H.
  - rewrite orb_true_iff, directive_here_true, IH. split.
    + intros [(c & rest & H & Hc) | (pre & c & rest & H & Hc)].
      * exists [], c, rest. split; assumption.
      * exists (x :: pre), c, rest. split; [rewrite H; reflexivity | exact Hc].
    + intros ([|y pre] & c & rest & H & Hc).
      * left. exists c, rest. split; assumption.
      * right. injection H as _ H. exists pre, c, rest. split; assumption.
Qed.

Lemma contains_directive_skipn (n : nat) (s : jsstring) :
  contains_directive s = false -> contains_directive (skipn n s) = false.
Proof.
  revert s; induction n as [|n IH]; intros s H; [exact H|].
  destruct s as [|c s]; [exact H|].
  simpl in H. apply orb_false_iff in H. apply IH, H.
Qed.

(** Without a directive in [s], [exec] fails whatever [lastIndex] is. *)
Lemma exec_no_directive (s : jsstring) (lastIndex : nat) :
  contains_directive s = false -> exec s lastIndex = None.
Proof.
  intros H. unfold exec. destruct (length s <? lastIndex); [reflexivity|].
  apply search_None, contains_directive_skipn, H.
Qed.

Lemma exec_start (s : jsstring) :
  exec s 0 = None <-> contains_directive s = false.
Proof. unfold exec; simpl. apply search_None. Qed.

(* ================================================================== *)
(** * Properties of includeDirective                                   *)
(* ================================================================== *)

(** [baseDir] is handed on to the recursive call and never read. *)
Lemma includeLoop_baseDir (h : Host) (fuel : nat) :
  forall contents lastIndex promptFilePath b1 b2,
    includeLoop h fuel contents lastIndex promptFilePath b1
    = includeLoop h fuel contents lastIndex promptFilePath b2.
Proof.
  induction fuel as [|fuel IH]; intros contents lastIndex promptFilePath b1 b2;
    simpl; [reflexivity|].
  destruct (exec contents lastIndex) as [m|]; [|reflexivity].
  destruct (resolveProjectFilePath h (match1 m) (originDir h promptFilePath)
              missingGit) as [e|fullPath]; [reflexivity|].
  destruct (readFile h fullPath) as [cause|includedContent]; [reflexivity|].
  rewrite (IH includedContent 0 (Some fullPath) b1 b2).
  destruct (includeLoop h fuel includedContent 0 (Some fullPath) b2);
    [apply IH | reflexivity | reflexivity].
Qed.

(** A run that ended keeps its outcome when it is given more fuel. *)
Lemma includeLoop_more_fuel (h : Host) (fuel : nat) :
  forall contents lastIndex promptFilePath baseDir,
    includeLoop h fuel contents lastIndex promptFilePath baseDir <> OutOfFuel ->
    forall extra,
      includeLoop h (fuel + extra) contents lastIndex promptFilePath baseDir
      = includeLoop h fuel contents lastIndex promptFilePath baseDir.
Proof.
  induction fuel as [|fuel IH]; intros contents lastIndex promptFilePath baseDir H extra.
  - exfalso; apply H; reflexivity.
  - simpl in *.
    destruct (exec contents lastIndex) as [m|]; [|reflexivity].
    destruct (resolveProjectFilePath h (match1 m) (originDir h promptFilePath)
                missingGit) as [e|fullPath]; [reflexivity|].
    destruct (readFile h fullPath) as [cause|includedContent]; [reflexivity|].
    destruct (includeLoop h fuel includedContent 0 (Some fullPath) baseDir)
      as [inc|e|] eqn:E.
    + rewrite IH, E by (rewrite E; discriminate). apply IH, H.
    + rewrite IH, E by (rewrite E; discriminate). reflexivity.
    + exfalso; apply H; reflexivity.
Qed.

(** No directive, no change: the loop body is never entered. *)
Lemma includeLoop_no_directive (h : Host) (fuel : nat) (text : jsstring)
    (lastIndex : nat) (promptFilePath : option jsstring) (baseDir : jsstring) :
  contains_directive text = false ->
  includeLoop h (S fuel) text lastIndex promptFilePath baseDir = Returned text.
Proof.
  intros H. simpl. rewrite (exec_no_directive text lastIndex H). reflexivity.
Qed.

(** A text without the literal token has no directive. *)
Lemma no_token_no_directive (text : jsstring) :
  (forall pre post, text <> pre ++ token ++ post) ->
  contains_directive text = false.
Proof.
  intros H. destruct (contains_directive text) eqn:E; [|reflexivity].
  apply contains_directive_spec in E. destruct E as (pre & c & rest & E & _).
  destruct (H pre (c :: rest) E).
Qed.

(** What [search] finds: the text of the match, and that no match starts
    before it. *)
Lemma search_found (s : jsstring) :
  forall i m, search s i = Some m ->
    i <= index m
    /\ match0 m = token ++ match1 m
    /\ (exists x p, match1 m = x :: p /\ path_char x = true)
    /\ exists post, skipn (index m - i) s = match0 m ++ post.
Proof.
  induction s as [|c s IH]; intros i m; cbn [search].
  - destruct (match_here []) eqn:E; [discriminate E | discriminate].
  - destruct (match_here (c :: s)) as [p|] eqn:E.
    + intros H; injection H as <-; cbn [index match0 match1].
      apply match_here_Some in E. destruct E as [[post Hpost] Hx].
      repeat split; [lia | exact Hx |].
      exists post. rewrite Nat.sub_diag, Hpost, app_assoc. reflexivity.
    + intros H. destruct (IH _ _ H) as (Hi & Hm & Hx & post & Hpost).
      repeat split; [lia | exact Hm | exact Hx |].
      exists post. replace (index m - i) with (S (index m - S i)) by lia.
      exact Hpost.
Qed.

(** With a fresh pattern the match found by [exec] is the first occurrence
    of its own text, so the first replacement of a call is made in place. *)
Lemma search_first_occurrence (s : jsstring) :
  forall i m, search s i = Some m ->
    indexOf_from s (match0 m) i = Some (index m).
Proof.
  induction s as [|c s IH]; intros i m; cbn [search indexOf_from].
  - destruct (match_here []) eqn:E; [discriminate E | discriminate].
  - intros H.
    pose proof (@search_found (c :: s) i m H) as (_ & Hm & (x & p & Hp & Hx) & _).
    destruct (match_here (c :: s)) as [q|] eqn:E.
    + injection H as <-. cbn [index match0 match1] in *.
      apply match_here_Some in E. destruct E as [[post Hpost] _].
      rewrite Hpost, app_assoc, strip_prefix_app. reflexivity.
    + destruct (strip_prefix (match0 m) (c :: s)) as [r|] eqn:E2;
        [|apply IH, H].
      exfalso. apply strip_prefix_Some in E2.
      apply match_here_None in E. unfold directive_here in E.
      rewrite E2, Hm, Hp, <- app_assoc, strip_prefix_app in E.
      simpl in E. congruence.
Qed.

Lemma first_replacement_in_place (s repl : jsstring) (m : RegExpMatch) :
  exec s 0 = Some m ->
  replace s (match0 m) repl
  = firstn (index m) s
    ++ getSubstitution (match0 m) (firstn (index m) s)
         (skipn (end_index m) s) repl
    ++ skipn (end_index m) s.
Proof.
  unfold exec. cbn [Nat.ltb Nat.leb skipn]. intros H.
  unfold replace, indexOf. rewrite (search_first_occurrence _ _ H).
  reflexivity.
Qed.

(** One turn of the loop on a file without directives: the search resumes
    in the new text at the [lastIndex] computed in the old one.  When
    nothing matches from there on, the call returns, whether or not a
    directive is left before that index. *)
Lemma includeDirective_resumes_at_old_index (h : Host) (fuel : nat)
    (contents : jsstring) (promptFilePath baseDir : option jsstring)
    (m : RegExpMatch) (fullPath includedContent : jsstring) :
  exec contents 0 = Some m ->
  resolveProjectFilePath h (match1 m) (originDir h promptFilePath) missingGit
  = inr fullPath ->
  readFile h fullPath = inr includedContent ->
  contains_directive includedContent = false ->
  exec (replace contents (match0 m) includedContent) (end_index m) = None ->
  includeDirective h (S (S fuel)) contents promptFilePath baseDir
  = Returned (replace contents (match0 m) includedContent).
Proof.
  intros Hm Hres Hread Hinc Hnext. unfold includeDirective.
  cbn [includeLoop]. rewrite Hm, Hres, Hread.
  rewrite (exec_no_directive includedContent 0 Hinc), Hnext. reflexivity.
Qed.

(** A failed read at the first directive: the call throws the error that
    names the resolved path and the cause, whatever follows in the text. *)
Lemma includeDirective_read_failure (h : Host) (fuel : nat)
    (contents : jsstring) (promptFilePath baseDir : option jsstring)
    (m : RegExpMatch) (fullPath cause : jsstring) :
  exec contents 0 = Some m ->
  resolveProjectFilePath h (match1 m) (originDir h promptFilePath) missingGit
  = inr fullPath ->
  readFile h fullPath = inl cause ->
  includeDirective h (S fuel) contents promptFilePath baseDir
  = Thrown (includeError fullPath cause).
Proof.
  intros Hm Hres Hread. unfold includeDirective. simpl.
  rewrite Hm, Hres, Hread. reflexivity.
Qed.

(** Nothing is caught: every thrown error is the error of a failed path
    resolution or of a failed read, at whatever depth it happened. *)
Lemma includeLoop_thrown (h : Host) (fuel : nat) :
  forall contents lastIndex promptFilePath baseDir e,
    includeLoop h fuel contents lastIndex promptFilePath baseDir = Thrown e ->
    (exists p dir, resolveProjectFilePath h p dir missingGit = inl e)
    \/ (exists fullPath cause,
          readFile h fullPath = inl cause /\ e = includeError fullPath cause).
Proof.
  induction fuel as [|fuel IH]; intros contents lastIndex promptFilePath baseDir e;
    simpl; [discriminate|].
  destruct (exec contents lastIndex) as [m|]; [|discriminate].
  destruct (resolveProjectFilePath h (match1 m) (originDir h promptFilePath)
              missingGit) as [e'|fullPath] eqn:Hres.
  - intros H; injection H as <-. left; eauto.
  - destruct (readFile h fullPath) as [cause|includedContent] eqn:Hread.
    + intros H; injection H as <-. right; eauto.
    + destruct (includeLoop h fuel includedContent 0 (Some fullPath) baseDir)
        as [inc|e'|] eqn:E; [apply IH | | discriminate].
      intros H; injection H as <-. apply (IH _ _ _ _ _ E).
Qed.

(** Once no directive is left in what a call returned, expanding that
    output again returns it unchanged. *)
Lemma includeDirective_fixed_output (h : Host) (fuel fuel' : nat)
    (text out : jsstring) (promptFilePath baseDir : option jsstring) :
  includeDirective h fuel text promptFilePath baseDir = Returned out ->
  contains_directive out = false ->
  includeDirective h (S fuel') out promptFilePath baseDir = Returned out.
Proof.
  intros _ H. apply includeLoop_no_directive, H.
Qed.

(** ** Runs on the small project *)

(** Files longer than their directives: both directives are expanded, each
    in its place. *)
Example include_two_long_files :
  includeDirective demoHost 3
    (js "x codespin:include:long.txt y codespin:include:long.txt z") None None
  = Returned (js "x a rather long line of text, longer than a directive y a rather long line of text, longer than a directive z").
Proof. vm_compute. reflexivity. Qed.

(** An include inside an included file is expanded first. *)
Example include_nested :
  includeDirective demoHost 3 (js "see codespin:include:nested.txt") None None
  = Returned (js "see [ a rather long line of text, longer than a directive ]").
Proof. vm_compute. reflexivity. Qed.

(** A file that includes itself: the call never returns. *)
Lemma include_cycle_never_returns (fuel : nat) :
  forall promptFilePath baseDir,
    includeLoop demoHost fuel (js "again: codespin:include:loop.txt") 0
      promptFilePath baseDir
    = OutOfFuel.
Proof.
  induction fuel as [|fuel IH]; intros promptFilePath baseDir; [reflexivity|].
  cbn [includeLoop].
  replace (exec (js "again: codespin:include:loop.txt") 0)
    with (Some {| index := 7; match0 := js "codespin:include:loop.txt";
                  match1 := js "loop.txt" |}) by (vm_compute; reflexivity).
  cbn [match1 match0 demoHost resolveProjectFilePath readFile originDir].
  replace (originDir demoHost promptFilePath) with (js ".")
    by (destruct promptFilePath as [[|c p]|]; reflexivity).
  replace (lookupFile demoFiles (js "." ++ js "/" ++ js "loop.txt"))
    with (Some (js "again: codespin:include:loop.txt"))
    by (vm_compute; reflexivity).
  rewrite IH. reflexivity.
Qed.

(** C7: a text in which the include pattern matches nowhere is returned
    unchanged, for every origin path and every base directory. *)
Theorem includeDirective_identity (h : Host) (fuel : nat) (text : jsstring)
    (promptFilePath baseDir : option jsstring) :
  contains_directive text = false ->
  includeDirective h (S fuel) text promptFilePath baseDir = Returned text.
Proof.
  intros H. unfold includeDirective. apply includeLoop_no_directive, H.
Qed.

Lemma includeDirective_identity_witness :
  contains_directive (js "Write a function. No includes here: codespin:include: ") = false
  /\ includeDirective demoHost 1
       (js "Write a function. No includes here: codespin:include: ")
       (Some (js "./prompt.md")) (Some (js "out"))
     = Returned (js "Write a function. No includes here: codespin:include: ").
Proof.
  split; [reflexivity|].
  apply (includeDirective_identity demoHost 0
           (js "Write a function. No includes here: codespin:include: ")
           (Some (js "./prompt.md")) (Some (js "out"))).
  reflexivity.
Defined.

(** C9: the result does not depend on [baseDir]: two calls that differ only
    in it, the omitted argument included, have the same outcome. *)
Theorem includeDirective_baseDir_independent (h : Host) (fuel : nat)
    (contents : jsstring) (promptFilePath : option jsstring)
    (baseDir1 baseDir2 : option jsstring) :
  includeDirective h fuel contents promptFilePath baseDir1
  = includeDirective h fuel contents promptFilePath baseDir2.
Proof.
  unfold includeDirective. apply includeLoop_baseDir.
Qed.

(** C2: two directives with different paths, the first file shorter than
    its directive.  The pattern keeps the [lastIndex] of the first match
    while [contents] has become shorter, so the search resumes after the
    start of the second directive and the second directive is never
    expanded: the text returned is not the one with both files in place. *)
Theorem includeDirective_second_directive_left (extra : nat) :
  includeDirective demoHost (2 + extra)
    (js "codespin:include:a.txt codespin:include:b.txt") None None
  = Returned (js "hi codespin:include:b.txt")
  /\ includeDirective demoHost (2 + extra) (js "codespin:include:a.txt") None None
     = Returned (js "hi")
  /\ includeDirective demoHost (2 + extra) (js "codespin:include:b.txt") None None
     = Returned (js "there")
  /\ js "hi codespin:include:b.txt" <> js "hi there".
Proof.
  unfold includeDirective.
  repeat split;
    try (rewrite includeLoop_more_fuel;
         [vm_compute; reflexivity | vm_compute; discriminate]).
  vm_compute; discriminate.
Qed.

(** C3: on the same acyclic project the output still holds a directive, and
    expanding the output changes it. *)
Theorem includeDirective_output_not_fixed (extra : nat) :
  includeDirective demoHost (2 + extra)
    (js "codespin:include:a.txt codespin:include:b.txt") None None
  = Returned (js "hi codespin:include:b.txt")
  /\ includeDirective demoHost (2 + extra)
       (js "hi codespin:include:b.txt") None None
     = Returned (js "hi there")
  /\ contains_directive (js "hi codespin:include:b.txt") = true.
Proof.
  unfold includeDirective.
  repeat split;
    try (rewrite includeLoop_more_fuel;
         [vm_compute; reflexivity | vm_compute; discriminate]).
Qed.

(** C8: the second directive names a file that cannot be read, and the
    call returns a partially expanded text instead of failing; the same
    directive alone does fail with the error naming path and cause. *)
Theorem includeDirective_unreadable_not_reported (extra : nat) :
  includeDirective demoHost (2 + extra)
    (js "codespin:include:a.txt codespin:include:missing.txt") None None
  = Returned (js "hi codespin:include:missing.txt")
  /\ readFile demoHost (js "./missing.txt")
     = inl (js "ENOENT: no such file or directory, open './missing.txt'")
  /\ includeDirective demoHost (1 + extra)
       (js "codespin:include:missing.txt") None None
     = Thrown (includeError (js "./missing.txt")
                 (js "ENOENT: no such file or directory, open './missing.txt'")).
Proof.
  unfold includeDirective.
  repeat split;
    try (rewrite includeLoop_more_fuel;
         [vm_compute; reflexivity | vm_compute; discriminate]).
Qed.

(* ================================================================== *)
(** * Properties of the completion client                              *)
(* ================================================================== *)

(** Case analysis on the next [match] of the goal. *)
Ltac next_case :=
  match goal with
  | |- context [match get ?te ?v ?k with _ => _ end] =>
      destruct (get te v k) eqn:?
  | |- context [match getFirst ?te ?v with _ => _ end] =>
      destruct (getFirst te v) eqn:?
  | |- context [if truthy ?v then _ else _] => destruct (truthy v) eqn:?
  | |- context [if strictNotEqualString ?v ?s then _ else _] =>
      destruct (strictNotEqualString v s) eqn:?
  end.

Ltac run_client :=
  unfold interpret, bind, lift, when, writeToConsole, emit, ret, trace, result;
  cbn [fst snd app].

Lemma result_bind {A B} (m : M A) (k : A -> M B) :
  result (bind m k)
  = match result m with
    | Done a => result (k a)
    | Raise e => Raise e
    end.
Proof.
  destruct m as [t [a|e]]; unfold bind, result; cbn [snd]; [|reflexivity].
  destruct (k a); reflexivity.
Qed.

Lemma trace_bind {A B} (m : M A) (k : A -> M B) :
  trace (bind m k)
  = trace m ++ match result m with
               | Done a => trace (k a)
               | Raise _ => []
               end.
Proof.
  destruct m as [t [a|e]]; unfold bind, result, trace; cbn [fst snd].
  - destruct (k a); reflexivity.
  - symmetry; apply app_nil_r.
Qed.

Lemma result_try_catch {A} (m : M A) (handler : Error -> M A) :
  result (try_catch m handler)
  = match result m with
    | Done a => Done a
    | Raise e => result (handler e)
    end.
Proof.
  destruct m as [t [a|e]]; unfold try_catch, result; cbn [snd]; [reflexivity|].
  destruct (handler e); reflexivity.
Qed.

Lemma trace_try_catch {A} (m : M A) (handler : Error -> M A) :
  trace (try_catch m handler)
  = trace m ++ match result m with
               | Done _ => []
               | Raise e => trace (handler e)
               end.
Proof.
  destruct m as [t [a|e]]; unfold try_catch, result, trace; cbn [fst snd].
  - symmetry; apply app_nil_r.
  - destruct (handler e); reflexivity.
Qed.

Lemma result_lift {A} (a : attempt A) : result (lift a) = a.
Proof. reflexivity. Qed.

Lemma result_ret {A} (a : A) : result (ret a) = Done a.
Proof. reflexivity. Qed.

Lemma result_emit (ev : event) : result (emit ev) = Done tt.
Proof. reflexivity. Qed.

Lemma trace_lift {A} (a : attempt A) : trace (lift a) = [].
Proof. reflexivity. Qed.

Lemma trace_ret {A} (a : A) : trace (ret a) = [].
Proof. reflexivity. Qed.

Lemma trace_emit (ev : event) : trace (emit ev) = [ev].
Proof. reflexivity. Qed.

Lemma result_when (b : bool) (m : M unit) :
  result m = Done tt -> result (when b m) = Done tt.
Proof. destruct b; simpl; auto. Qed.

(** Reading the payload throws nothing into the trace: [interpret] only
    writes its two debug lines. *)
Lemma interpret_trace (w : World) (dbg : bool) (data : value) :
  trace (interpret w dbg data)
  = if dbg then [ ConsoleWrite (js "---OPENAI RESPONSE---");
                  ConsoleWrite (stringify w (VObj [(js "data", data)])) ]
    else [].
Proof.
  run_client. destruct dbg; cbn [fst snd app]; repeat next_case; reflexivity.
Qed.

(** The debug flag does not change what [interpret] returns. *)
Lemma interpret_result_debug (w : World) (dbg : bool) (data : value) :
  result (interpret w dbg data) = result (interpret w false data).
Proof.
  run_client. destruct dbg; cbn [fst snd app]; repeat next_case; reflexivity.
Qed.

(** What [interpret] returns, read off the payload. *)
Lemma interpret_result (w : World) (data : value) :
  result (interpret w false data)
  = match providerError w data with
    | Raise e => Raise e
    | Done error =>
        if truthy error then
          match get (typeError w) error (js "code") with
          | Raise e => Raise e
          | Done code =>
              match get (typeError w) error (js "message") with
              | Raise e => Raise e
              | Done message => Done (Err code message)
              end
          end
        else
          match firstChoice w data with
          | Raise e => Raise e
          | Done choice =>
              match get (typeError w) choice (js "finish_reason") with
              | Raise e => Raise e
              | Done finish_reason =>
                  if strictNotEqualString finish_reason (js "stop") then
                    Done (Err finish_reason finish_reason)
                  else
                    match get (typeError w) choice (js "message") with
                    | Raise e => Raise e
                    | Done message =>
                        match get (typeError w) message (js "content") with
                        | Raise e => Raise e
                        | Done content => Done (Ok content)
                        end
                    end
              end
          end
    end.
Proof.
  unfold providerError, firstChoice. run_client.
  repeat next_case; reflexivity.
Qed.

(** Without a key the client stops before the [try] block. *)
Lemma completion_without_key (w : World) (prompt : jsstring)
    (options : CompletionOptions) :
  OPENAI_API_KEY w = None \/ OPENAI_API_KEY w = Some [] ->
  completion w prompt options
  = ((if toBoolean (debug options) then
        [ ConsoleWrite (js "OPENAI: model=" ++ defaultedModel options);
          ConsoleWrite (js "OPENAI: maxTokens="
                        ++ numberToString w (defaultedMaxTokens prompt options)) ]
      else []),
     Done (Err (VStr (js "missing_api_key")) (VStr missingKeyMessage))).
Proof.
  intros [H|H]; unfold completion; rewrite H; run_client;
    destruct (toBoolean (debug options)); reflexivity.
Qed.

(** With a key: the result of the [try] block, every error of which goes
    through the [catch] block. *)
Lemma completion_with_key (w : World) (prompt : jsstring)
    (options : CompletionOptions) (c : code_unit) (k : jsstring) :
  OPENAI_API_KEY w = Some (c :: k) ->
  result (completion w prompt options)
  = match fetch w (endpoint w) (request (c :: k) prompt options) with
    | Raise e => Done (fetchError e)
    | Done response =>
        match json response with
        | Raise e => Done (fetchError e)
        | Done data =>
            match result (interpret w false data) with
            | Raise e => Done (fetchError e)
            | Done r => Done r
            end
        end
    end.
Proof.
  intros H. unfold completion. rewrite H.
  rewrite result_bind, result_when by reflexivity.
  rewrite result_try_catch, result_bind, result_emit, result_bind, result_lift.
  destruct (fetch w (endpoint w) (request (c :: k) prompt options))
    as [response|e]; [|reflexivity].
  rewrite result_bind, result_lift.
  destruct (json response) as [data|e]; [|reflexivity].
  rewrite interpret_result_debug.
  destruct (result (interpret w false data)); reflexivity.
Qed.

(** The external calls of the client, in order: the two debug lines, then,
    only if the key is set, the one [fetch], then the two debug lines about
    the payload if there is one. *)
Lemma completion_trace (w : World) (prompt : jsstring)
    (options : CompletionOptions) :
  trace (completion w prompt options)
  = (if toBoolean (debug options) then
       [ ConsoleWrite (js "OPENAI: model=" ++ defaultedModel options);
         ConsoleWrite (js "OPENAI: maxTokens="
                       ++ numberToString w (defaultedMaxTokens prompt options)) ]
     else [])
    ++ match OPENAI_API_KEY w with
       | Some (c :: k) =>
           FetchCall (endpoint w) (request (c :: k) prompt options)
           :: match fetch w (endpoint w) (request (c :: k) prompt options) with
              | Raise _ => []
              | Done response =>
                  match json response with
                  | Raise _ => []
                  | Done data =>
                      if toBoolean (debug options) then
                        [ ConsoleWrite (js "---OPENAI RESPONSE---");
                          ConsoleWrite (stringify w (VObj [(js "data", data)])) ]
                      else []
                  end
              end
       | _ => []
       end.
Proof.
  unfold completion. rewrite trace_bind, result_when by reflexivity.
  f_equal; [destruct (toBoolean (debug options)); reflexivity|].
  destruct (OPENAI_API_KEY w) as [[|c k]|]; try reflexivity.
  rewrite trace_try_catch.
  assert (Hh : forall r : attempt CompletionResult,
             match r with
             | Done _ => []
             | Raise e => trace (ret (fetchError e))
             end = []) by (intros [|]; reflexivity).
  rewrite Hh, app_nil_r. clear Hh.
  rewrite trace_bind, trace_emit, result_emit, trace_bind, trace_lift,
    result_lift.
  cbn [app]. f_equal.
  destruct (fetch w (endpoint w) (request (c :: k) prompt options))
    as [response|e]; [|reflexivity].
  rewrite trace_bind, trace_lift, result_lift. cbn [app].
  destruct (json response) as [data|e]; [|reflexivity].
  apply interpret_trace.
Qed.

(** Every [fetch] of a call carries the request built from the key, the
    prompt and the options, and goes to the configured endpoint. *)
Lemma completion_fetch_request (w : World) (prompt : jsstring)
    (options : CompletionOptions) (url : jsstring) (init : RequestInit) :
  In (FetchCall url init) (trace (completion w prompt options)) ->
  exists c k, OPENAI_API_KEY w = Some (c :: k)
              /\ url = endpoint w /\ init = request (c :: k) prompt options.
Proof.
  rewrite completion_trace, in_app_iff. intros [H|H].
  - destruct (toBoolean (debug options)); cbn in H; intuition discriminate.
  - destruct (OPENAI_API_KEY w) as [[|c k]|]; try contradiction.
    destruct H as [H|H]; [injection H as <- <-; eauto|].
    exfalso.
    destruct (fetch w (endpoint w) (request (c :: k) prompt options))
      as [response|e]; [|contradiction].
    destruct (json response) as [data|e]; [|contradiction].
    destruct (toBoolean (debug options)); cbn in H; intuition discriminate.
Qed.

(** With a key the request is sent, once. *)
Lemma completion_sends_request (w : World) (prompt : jsstring)
    (options : CompletionOptions) (c : code_unit) (k : jsstring) :
  OPENAI_API_KEY w = Some (c :: k) ->
  In (FetchCall (endpoint w) (request (c :: k) prompt options))
     (trace (completion w prompt options)).
Proof.
  intros K. rewrite completion_trace, K, in_app_iff. right. left. reflexivity.
Qed.

(** A truthy [data.error] can be read: only [undefined] and [null] throw. *)
Lemma get_truthy (te : value -> jsstring -> jsstring) (v : value)
    (k : jsstring) :
  truthy v = true -> exists x, get te v k = Done x.
Proof.
  destruct v; simpl; try discriminate; eauto.
Qed.

Lemma strictNotEqualString_false (v : value) (s : jsstring) :
  strictNotEqualString v s = false <-> v = VStr s.
Proof.
  destruct v; simpl; try (split; discriminate).
  rewrite negb_false_iff, eqb_eq. split; congruence.
Qed.

(** The client returns a value whatever happens. *)
Lemma completion_returns (w : World) (prompt : jsstring)
    (options : CompletionOptions) :
  exists r, result (completion w prompt options) = Done r.
Proof.
  destruct (OPENAI_API_KEY w) as [[|c k]|] eqn:K.
  - rewrite completion_without_key by auto. simpl; eauto.
  - rewrite (completion_with_key w prompt options K).
    destruct (fetch w (endpoint w) (request (c :: k) prompt options))
      as [response|e]; [|eauto].
    destruct (json response) as [data|e]; [|eauto].
    destruct (result (interpret w false data)); eauto.
  - rewrite completion_without_key by auto. simpl; eauto.
Qed.

Lemma fetchCalls_app (t1 t2 : list event) :
  fetchCalls (t1 ++ t2) = fetchCalls t1 ++ fetchCalls t2.
Proof. apply flat_map_app. Qed.

(** With a key the request built from the prompt and the options is the one
    [fetch] of the call. *)
Lemma completion_fetch_list (w : World) (prompt : jsstring)
    (options : CompletionOptions) (c : code_unit) (k : jsstring) :
  OPENAI_API_KEY w = Some (c :: k) ->
  fetchCalls (trace (completion w prompt options))
  = [(endpoint w, request (c :: k) prompt options)].
Proof.
  intros K. rewrite completion_trace, fetchCalls_app, K.
  destruct (toBoolean (debug options)); cbn [app fetchCalls flat_map];
    destruct (fetch w (endpoint w) (request (c :: k) prompt options))
      as [response|e]; try reflexivity;
    destruct (json response) as [data|e]; reflexivity.
Qed.

(** With the debug flag the effective model and budget are written to the
    console, whether or not there is a key. *)
Lemma completion_debug_lines (w : World) (prompt : jsstring)
    (options : CompletionOptions) :
  toBoolean (debug options) = true ->
  In (ConsoleWrite (js "OPENAI: model=" ++ defaultedModel options))
     (trace (completion w prompt options))
  /\ In (ConsoleWrite
           (js "OPENAI: maxTokens="
            ++ numberToString w (defaultedMaxTokens prompt options)))
        (trace (completion w prompt options)).
Proof.
  intros D. rewrite completion_trace, D. split; apply in_app_iff; left.
  - left; reflexivity.
  - right; left; reflexivity.
Qed.

(** C5: with no credential in the environment the client returns the
    [missing_api_key] error and the trace of the call holds no [fetch]. *)
Theorem completion_missing_api_key (w : World) (prompt : jsstring)
    (options : CompletionOptions) :
  OPENAI_API_KEY w = None \/ OPENAI_API_KEY w = Some [] ->
  result (completion w prompt options)
  = Done (Err (VStr (js "missing_api_key")) (VStr missingKeyMessage))
  /\ forall url init,
       ~ In (FetchCall url init) (trace (completion w prompt options)).
Proof.
  intros H. split.
  - rewrite completion_without_key by exact H. reflexivity.
  - intros url init Hin.
    apply completion_fetch_request in Hin.
    destruct Hin as (c & k & K & _). destruct H as [H|H]; congruence.
Qed.

(** C4: the client never throws.  Every call returns a value, and each way
    of failing gives an [Err] value: a missing key gives [missing_api_key];
    a failing [fetch] or a failing [response.json()] gives [fetch_error]
    with the error's message (the fixed text when that message is empty); a
    provider error gives the provider's code and message; a finish reason
    other than [stop] gives that finish reason. *)
Theorem completion_never_throws (w : World) (prompt : jsstring)
    (options : CompletionOptions) :
  (exists r, result (completion w prompt options) = Done r)
  /\ (forall c k e,
        OPENAI_API_KEY w = Some (c :: k) ->
        fetch w (endpoint w) (request (c :: k) prompt options) = Raise e ->
        result (completion w prompt options)
        = Done (Err (VStr (js "fetch_error"))
                    (VStr (match error_message e with
                           | [] => fetchFallbackMessage
                           | cause => cause
                           end))))
  /\ (forall c k response e,
        OPENAI_API_KEY w = Some (c :: k) ->
        fetch w (endpoint w) (request (c :: k) prompt options) = Done response ->
        json response = Raise e ->
        result (completion w prompt options)
        = Done (Err (VStr (js "fetch_error"))
                    (VStr (match error_message e with
                           | [] => fetchFallbackMessage
                           | cause => cause
                           end))))
  /\ (forall c k response data error,
        OPENAI_API_KEY w = Some (c :: k) ->
        fetch w (endpoint w) (request (c :: k) prompt options) = Done response ->
        json response = Done data ->
        providerError w data = Done error ->
        truthy error = true ->
        exists code message,
          get (typeError w) error (js "code") = Done code
          /\ get (typeError w) error (js "message") = Done message
          /\ result (completion w prompt options) = Done (Err code message))
  /\ (OPENAI_API_KEY w = None \/ OPENAI_API_KEY w = Some [] ->
      result (completion w prompt options)
      = Done (Err (VStr (js "missing_api_key"))
                  (VStr (js "OPENAI_API_KEY is not set in the environment variables."))))
  /\ (forall c k response data error choice finish_reason,
        OPENAI_API_KEY w = Some (c :: k) ->
        fetch w (endpoint w) (request (c :: k) prompt options) = Done response ->
        json response = Done data ->
        providerError w data = Done error ->
        truthy error = false ->
        firstChoice w data = Done choice ->
        get (typeError w) choice (js "finish_reason") = Done finish_reason ->
        finish_reason <> VStr (js "stop") ->
        result (completion w prompt options)
        = Done (Err finish_reason finish_reason)).
Proof.
  split; [apply completion_returns|].
  split; [|split; [|split; [|split]]].
  - intros c k e K F. rewrite (completion_with_key w prompt options K), F.
    unfold fetchError, orString. destruct (error_message e); reflexivity.
  - intros c k response e K F J.
    rewrite (completion_with_key w prompt options K), F, J.
    unfold fetchError, orString. destruct (error_message e); reflexivity.
  - intros c k response data error K F J P T.
    destruct (get_truthy (typeError w) error (js "code") T) as [code Hc].
    destruct (get_truthy (typeError w) error (js "message") T) as [message Hm].
    exists code, message. split; [exact Hc|]. split; [exact Hm|].
    rewrite (completion_with_key w prompt options K), F, J, interpret_result,
      P, T, Hc, Hm.
    reflexivity.
  - intros K. rewrite completion_without_key by exact K. reflexivity.
  - intros c k response data error choice finish_reason K F J P T C R N.
    rewrite (completion_with_key w prompt options K), F, J, interpret_result,
      P, T, C, R.
    destruct (strictNotEqualString finish_reason (js "stop")) eqn:S;
      [reflexivity|].
    apply strictNotEqualString_false in S. contradiction.
Qed.

(** C1: when the payload has no provider error and its first choice has a
    finish reason other than [stop], the client returns [Err] with that
    finish reason as code, whatever the message content is; and whenever the
    client returns [Ok], the finish reason was [stop] and the message is the
    content of the first choice as it stands. *)
Theorem completion_finish_reason (w : World) (prompt : jsstring)
    (options : CompletionOptions) :
  (forall c k response data error choice finish_reason,
      OPENAI_API_KEY w = Some (c :: k) ->
      fetch w (endpoint w) (request (c :: k) prompt options) = Done response ->
      json response = Done data ->
      providerError w data = Done error ->
      truthy error = false ->
      firstChoice w data = Done choice ->
      get (typeError w) choice (js "finish_reason") = Done finish_reason ->
      finish_reason <> VStr (js "stop") ->
      result (completion w prompt options)
      = Done (Err finish_reason finish_reason))
  /\ (forall text,
        result (completion w prompt options) = Done (Ok text) ->
        exists c k response data choice message,
          OPENAI_API_KEY w = Some (c :: k)
          /\ fetch w (endpoint w) (request (c :: k) prompt options)
             = Done response
          /\ json response = Done data
          /\ firstChoice w data = Done choice
          /\ get (typeError w) choice (js "finish_reason")
             = Done (VStr (js "stop"))
          /\ get (typeError w) choice (js "message") = Done message
          /\ get (typeError w) message (js "content") = Done text).
Proof.
  split.
  - intros c k response data error choice finish_reason K F J P T C R N.
    rewrite (completion_with_key w prompt options K), F, J, interpret_result,
      P, T, C, R.
    destruct (strictNotEqualString finish_reason (js "stop")) eqn:S;
      [reflexivity|].
    apply strictNotEqualString_false in S. contradiction.
  - intros text H.
    destruct (OPENAI_API_KEY w) as [[|c k]|] eqn:K;
      try (rewrite completion_without_key in H by auto; discriminate H).
    rewrite (completion_with_key w prompt options K) in H.
    destruct (fetch w (endpoint w) (request (c :: k) prompt options))
      as [response|e] eqn:F; [|discriminate H].
    destruct (json response) as [data|e] eqn:J; [|discriminate H].
    rewrite interpret_result in H.
    destruct (providerError w data) as [error|e]; [|discriminate H].
    destruct (truthy error).
    + destruct (get (typeError w) error (js "code")); [|discriminate H].
      destruct (get (typeError w) error (js "message")); discriminate H.
    + destruct (firstChoice w data) as [choice|e] eqn:C; [|discriminate H].
      destruct (get (typeError w) choice (js "finish_reason"))
        as [finish_reason|e] eqn:R; [|discriminate H].
      destruct (strictNotEqualString finish_reason (js "stop")) eqn:S;
        [discriminate H|].
      apply strictNotEqualString_false in S. subst finish_reason.
      destruct (get (typeError w) choice (js "message")) as [message|e] eqn:Hm;
        [|discriminate H].
      destruct (get (typeError w) message (js "content")) as [content|e] eqn:Hc;
        [|discriminate H].
      injection H as <-.
      exists c, k, response, data, choice, message. auto 10.
Qed.

(** C6: with [options.maxTokens] unset the budget the client computes is
    4000 minus the length of the prompt: it is the [max_tokens] of the one
    request sent when there is a key, and the budget of the debug line when
    the debug flag is set; for a prompt of length 500 it is 3500. *)
Theorem completion_default_budget (w : World) (prompt : jsstring)
    (options : CompletionOptions) :
  maxTokens options = None ->
  defaultedMaxTokens prompt options
  = ofZ (4000 - Z.of_nat (length prompt))
  /\ (forall c k,
        OPENAI_API_KEY w = Some (c :: k) ->
        exists init,
          fetchCalls (trace (completion w prompt options))
          = [(endpoint w, init)]
          /\ max_tokens (body init) = ofZ (4000 - Z.of_nat (length prompt)))
  /\ (toBoolean (debug options) = true ->
      In (ConsoleWrite
            (js "OPENAI: maxTokens="
             ++ numberToString w (ofZ (4000 - Z.of_nat (length prompt)))))
         (trace (completion w prompt options)))
  /\ (forall url init,
        In (FetchCall url init) (trace (completion w prompt options)) ->
        max_tokens (body init) = ofZ (4000 - Z.of_nat (length prompt)))
  /\ (length prompt = 500 ->
      ofZ (4000 - Z.of_nat (length prompt)) = ofZ 3500).
Proof.
  intros H.
  assert (B : defaultedMaxTokens prompt options
              = ofZ (4000 - Z.of_nat (length prompt)))
    by (unfold defaultedMaxTokens; rewrite H; reflexivity).
  split; [exact B|]. split; [|split; [|split]].
  - intros c k K. exists (request (c :: k) prompt options).
    split; [apply completion_fetch_list, K | exact B].
  - intros D. rewrite <- B. apply completion_debug_lines, D.
  - intros url init Hin.
    apply completion_fetch_request in Hin.
    destruct Hin as (c & k & _ & _ & ->). exact B.
  - intros L. rewrite L. reflexivity.
Qed.

(** C10: the defaults also replace falsy values that are present.  A
    [maxTokens] that is 0, -0 or NaN gives the budget 4000 minus the length
    of the prompt, and an empty [model] gives the baseline model: in the one
    request sent when there is a key, and in the debug lines when the debug
    flag is set. *)
Theorem completion_defaults_on_falsy (w : World) (prompt : jsstring)
    (options : CompletionOptions) :
  (forall n,
      maxTokens options = Some n ->
      n = ofZ 0 \/ n = NegativeZero \/ n = NaN ->
      defaultedMaxTokens prompt options
      = ofZ (4000 - Z.of_nat (length prompt))
      /\ (forall c k,
            OPENAI_API_KEY w = Some (c :: k) ->
            exists init,
              fetchCalls (trace (completion w prompt options))
              = [(endpoint w, init)]
              /\ max_tokens (body init)
                 = ofZ (4000 - Z.of_nat (length prompt)))
      /\ (toBoolean (debug options) = true ->
          In (ConsoleWrite
                (js "OPENAI: maxTokens="
                 ++ numberToString w (ofZ (4000 - Z.of_nat (length prompt)))))
             (trace (completion w prompt options))))
  /\ (model options = Some [] ->
      defaultedModel options = js "gpt-3.5-turbo"
      /\ (forall c k,
            OPENAI_API_KEY w = Some (c :: k) ->
            exists init,
              fetchCalls (trace (completion w prompt options))
              = [(endpoint w, init)]
              /\ body_model (body init) = js "gpt-3.5-turbo")
      /\ (toBoolean (debug options) = true ->
          In (ConsoleWrite (js "OPENAI: model=" ++ js "gpt-3.5-turbo"))
             (trace (completion w prompt options)))).
Proof.
  split.
  - intros n H Hn.
    assert (B : defaultedMaxTokens prompt options
                = ofZ (4000 - Z.of_nat (length prompt)))
      by (unfold defaultedMaxTokens; rewrite H;
          destruct Hn as [->|[->| ->]]; reflexivity).
    split; [exact B|]. split.
    + intros c k K. exists (request (c :: k) prompt options).
      split; [apply completion_fetch_list, K | exact B].
    + intros D. rewrite <- B. apply completion_debug_lines, D.
  - intros H.
    assert (B : defaultedModel options = js "gpt-3.5-turbo")
      by (unfold defaultedModel; rewrite H; reflexivity).
    split; [exact B|]. split.
    + intros c k K. exists (request (c :: k) prompt options).
      split; [apply completion_fetch_list, K | exact B].
    + intros D. rewrite <- B. apply completion_debug_lines, D.
Qed.

(** ** The statements at concrete calls *)

Lemma completion_finish_reason_witness :
  result (completion truncated (js "Write f") plainOptions)
  = Done (Err (VStr (js "length")) (VStr (js "length"))).
Proof.
  apply (proj1 (completion_finish_reason truncated (js "Write f") plainOptions)
           115%N (js "k-test")
           {| json := Done (answer "length" "def f(x):") |}
           (answer "length" "def f(x):")
           VUndefined
           (VObj [ (js "message", VObj [ (js "content", VStr (js "def f(x):")) ]);
                   (js "finish_reason", VStr (js "length")) ])
           (VStr (js "length")));
    try reflexivity.
  intros H. vm_compute in H. discriminate H.
Defined.

Lemma completion_never_throws_witness :
  result (completion offline (js "Write f") plainOptions)
  = Done (Err (VStr (js "fetch_error")) (VStr (js "fetch failed"))).
Proof.
  apply (proj1 (proj2 (completion_never_throws offline (js "Write f")
                         plainOptions))
           115%N (js "k-test") {| error_message := js "fetch failed" |});
    reflexivity.
Defined.

Lemma completion_missing_api_key_witness :
  result (completion noKey (js "Write f") plainOptions)
  = Done (Err (VStr (js "missing_api_key")) (VStr missingKeyMessage))
  /\ forall url init,
       ~ In (FetchCall url init)
           (trace (completion noKey (js "Write f") plainOptions)).
Proof.
  apply (completion_missing_api_key noKey (js "Write f") plainOptions).
  left; reflexivity.
Defined.

Lemma completion_default_budget_witness :
  length prompt500 = 500
  /\ (exists init,
        fetchCalls (trace (completion truncated prompt500 plainOptions))
        = [(endpoint truncated, init)]
        /\ max_tokens (body init) = ofZ 3500)
  /\ In (ConsoleWrite (js "OPENAI: maxTokens=" ++ js "3500"))
        (trace (completion truncated prompt500 plainOptions)).
Proof.
  split; [reflexivity|].
  pose proof (completion_default_budget truncated prompt500 plainOptions
                eq_refl) as (_ & Hf & Hd & _).
  split.
  - exact (Hf 115%N (js "k-test") eq_refl).
  - exact (Hd eq_refl).
Defined.

Lemma completion_defaults_on_falsy_witness :
  (exists init,
      fetchCalls (trace (completion truncated prompt500 falsyOptions))
      = [(endpoint truncated, init)]
      /\ max_tokens (body init) = ofZ 3500
      /\ body_model (body init) = js "gpt-3.5-turbo")
  /\ In (ConsoleWrite (js "OPENAI: maxTokens=" ++ js "3500"))
        (trace (completion truncated prompt500 falsyDebugOptions))
  /\ In (ConsoleWrite (js "OPENAI: model=" ++ js "gpt-3.5-turbo"))
        (trace (completion truncated prompt500 falsyDebugOptions)).
Proof.
  pose proof (completion_defaults_on_falsy truncated prompt500 falsyOptions)
    as (Ht & Hm).
  pose proof (completion_defaults_on_falsy truncated prompt500
                falsyDebugOptions) as (Ht' & Hm').
  destruct (Ht (ofZ 0) eq_refl (or_introl eq_refl)) as (_ & Hf & _).
  destruct (Hm eq_refl) as (_ & Hg & _).
  destruct (Ht' NaN eq_refl (or_intror (or_intror eq_refl))) as (_ & _ & Hd).
  destruct (Hm' eq_refl) as (_ & _ & Hd').
  split; [|split].
  - exists (request demoKey prompt500 falsyOptions).
    split; [reflexivity|]. split; reflexivity.
  - exact (Hd eq_refl).
  - exact (Hd' eq_refl).
Defined.

(* ================================================================== *)
(** * Further properties of the completion client                      *)
(* ================================================================== *)

(** X1: exactly one request is sent when the key is set, to the configured
    endpoint, and none when it is not. *)
Theorem completion_single_fetch (w : World) (prompt : jsstring)
    (options : CompletionOptions) :
  fetchCalls (trace (completion w prompt options))
  = match OPENAI_API_KEY w with
    | Some (c :: k) => [(endpoint w, request (c :: k) prompt options)]
    | _ => []
    end.
Proof.
  rewrite completion_trace, fetchCalls_app.
  replace (fetchCalls
             (if toBoolean (debug options)
              then [ConsoleWrite (js "OPENAI: model=" ++ defaultedModel options);
                    ConsoleWrite
                      (js "OPENAI: maxTokens="
                       ++ numberToString w (defaultedMaxTokens prompt options))]
              else [])) with (@nil (jsstring * RequestInit))
    by (destruct (toBoolean (debug options)); reflexivity).
  destruct (OPENAI_API_KEY w) as [[|c k]|]; try reflexivity.
  cbn [app fetchCalls flat_map]. f_equal.
  destruct (fetch w (endpoint w) (request (c :: k) prompt options))
    as [response|e]; [|reflexivity].
  destruct (json response) as [data|e]; [|reflexivity].
  destruct (toBoolean (debug options)); reflexivity.
Qed.

(** X2: the debug flag only adds console lines: two calls that differ in
    nothing but [debug] return the same result and send the same
    request. *)
Theorem completion_debug_only_logs (w : World) (prompt : jsstring)
    (options1 options2 : CompletionOptions) :
  model options1 = model options2 ->
  maxTokens options1 = maxTokens options2 ->
  result (completion w prompt options1) = result (completion w prompt options2)
  /\ fetchCalls (trace (completion w prompt options1))
     = fetchCalls (trace (completion w prompt options2)).
Proof.
  intros Hm Ht.
  assert (R : forall key, request key prompt options1
                          = request key prompt options2).
  { intros key. unfold request, defaultedModel, defaultedMaxTokens.
    rewrite Hm, Ht. reflexivity. }
  split.
  - destruct (OPENAI_API_KEY w) as [[|c k]|] eqn:K.
    + rewrite !completion_without_key by auto. reflexivity.
    + rewrite !(completion_with_key w prompt _ K), R. reflexivity.
    + rewrite !completion_without_key by auto. reflexivity.
  - rewrite !completion_single_fetch.
    destruct (OPENAI_API_KEY w) as [[|c k]|]; try reflexivity.
    rewrite R. reflexivity.
Qed.

Lemma completion_debug_only_logs_witness :
  result (completion truncated (js "Write f") plainOptions)
  = result (completion truncated (js "Write f")
              {| model := None; maxTokens := None; debug := None |})
  /\ fetchCalls (trace (completion truncated (js "Write f") plainOptions))
     = fetchCalls (trace (completion truncated (js "Write f")
                            {| model := None; maxTokens := None;
                               debug := None |})).
Proof.
  apply (completion_debug_only_logs truncated (js "Write f") plainOptions
           {| model := None; maxTokens := None; debug := None |});
    reflexivity.
Defined.

(** X3: the request that is sent is a POST to the endpoint of the
    environment (the default one when the override is unset or empty), with
    the key as bearer token, the prompt as the only message, a user message,
    and temperature 0. *)
Theorem completion_request_shape (w : World) (prompt : jsstring)
    (options : CompletionOptions) (url : jsstring) (init : RequestInit) :
  In (FetchCall url init) (trace (completion w prompt options)) ->
  url = match OPENAI_COMPLETIONS_ENDPOINT w with
        | Some (c :: u) => c :: u
        | _ => js "https://api.openai.com/v1/chat/completions"
        end
  /\ method init = js "POST"
  /\ (exists key, OPENAI_API_KEY w = Some key /\ key <> []
                  /\ headers init
                     = [ (js "Content-Type", js "application/json");
                         (js "Authorization", js "Bearer " ++ key) ])
  /\ messages (body init) = [ {| role := js "user"; content := prompt |} ]
  /\ temperature (body init) = 0%Z.
Proof.
  intros H. apply completion_fetch_request in H.
  destruct H as (c & k & K & -> & ->).
  split; [|split; [|split; [|split]]]; try reflexivity.
  exists (c :: k). split; [exact K | split; [discriminate | reflexivity]].
Qed.

Lemma completion_request_shape_witness :
  method (request demoKey (js "Write f") plainOptions) = js "POST"
  /\ temperature (body (request demoKey (js "Write f") plainOptions)) = 0%Z.
Proof.
  pose proof (completion_request_shape truncated (js "Write f") plainOptions
                (endpoint truncated) (request demoKey (js "Write f") plainOptions)
                (completion_sends_request truncated (js "Write f") plainOptions
                   (c := 115%N) (k := js "k-test") eq_refl))
    as (_ & Hm & _ & _ & Ht).
  split; [exact Hm | exact Ht].
Defined.



(** X5: a payload that cannot be read as a completion is reported as
    [fetch_error] carrying the message of the TypeError: a [null] payload, a
    payload without a first choice, a first choice that is [undefined] or
    [null], or a choice without a message object. *)
Theorem completion_malformed_payload (w : World) (prompt : jsstring)
    (options : CompletionOptions) (c : code_unit) (k : jsstring)
    (response : Response) (data : value) (e : Error) :
  OPENAI_API_KEY w = Some (c :: k) ->
  fetch w (endpoint w) (request (c :: k) prompt options) = Done response ->
  json response = Done data ->
  (providerError w data = Raise e
   \/ (exists error, providerError w data = Done error /\ truthy error = false)
      /\ (firstChoice w data = Raise e
          \/ exists choice,
               firstChoice w data = Done choice
               /\ (get (typeError w) choice (js "finish_reason") = Raise e
                   \/ get (typeError w) choice (js "finish_reason")
                      = Done (VStr (js "stop"))
                      /\ exists message,
                           get (typeError w) choice (js "message") = Done message
                           /\ get (typeError w) message (js "content")
                              = Raise e))) ->
  result (completion w prompt options) = Done (fetchError e).
Proof.
  intros K F J H.
  rewrite (completion_with_key w prompt options K), F, J, interpret_result.
  destruct H as [P | [(error & P & T) [C | (choice & C & [R | (R & message & Hm & Hc)])]]].
  - rewrite P. reflexivity.
  - rewrite P, T, C. reflexivity.
  - rewrite P, T, C, R. reflexivity.
  - rewrite P, T, C, R, Hm, Hc. reflexivity.
Qed.

Lemma completion_malformed_payload_witness :
  result (completion
            (demoWorld (Some demoKey)
               (Done {| json := Done (VObj [(js "choices", VArr [])]) |}))
            (js "Write f") plainOptions)
  = Done (Err (VStr (js "fetch_error"))
              (VStr (js "Cannot read properties of undefined: finish_reason"))).
Proof.
  apply (completion_malformed_payload
           (demoWorld (Some demoKey)
              (Done {| json := Done (VObj [(js "choices", VArr [])]) |}))
           (js "Write f") plainOptions (k := js "k-test")
           (e := {| error_message :=
                      js "Cannot read properties of undefined: finish_reason" |})
           eq_refl eq_refl eq_refl).
  right. split.
  - exists VUndefined. split; reflexivity.
  - right. exists VUndefined. split; [reflexivity|]. left. reflexivity.
Defined.

(** X6: a first choice that stopped gives [Ok] with [message.content] as it
    is in the payload, whatever value that is: when the message has no
    content the client returns [Ok] with [undefined]. *)
Theorem completion_stop_returns_content (w : World) (prompt : jsstring)
    (options : CompletionOptions) (c : code_unit) (k : jsstring)
    (response : Response) (data error choice message content : value) :
  OPENAI_API_KEY w = Some (c :: k) ->
  fetch w (endpoint w) (request (c :: k) prompt options) = Done response ->
  json response = Done data ->
  providerError w data = Done error ->
  truthy error = false ->
  firstChoice w data = Done choice ->
  get (typeError w) choice (js "finish_reason") = Done (VStr (js "stop")) ->
  get (typeError w) choice (js "message") = Done message ->
  get (typeError w) message (js "content") = Done content ->
  result (completion w prompt options) = Done (Ok content).
Proof.
  intros K F J P T C R Hm Hc.
  rewrite (completion_with_key w prompt options K), F, J, interpret_result,
    P, T, C, R, Hm, Hc.
  reflexivity.
Qed.

Lemma completion_stop_returns_content_witness :
  result (completion
            (demoWorld (Some demoKey)
               (Done {| json :=
                  Done (VObj [ (js "choices",
                                VArr [ VObj [ (js "message", VObj []);
                                              (js "finish_reason",
                                               VStr (js "stop")) ] ]) ]) |}))
            (js "Write f") plainOptions)
  = Done (Ok VUndefined).
Proof.
  apply (completion_stop_returns_content
           (demoWorld (Some demoKey)
              (Done {| json :=
                 Done (VObj [ (js "choices",
                               VArr [ VObj [ (js "message", VObj []);
                                             (js "finish_reason",
                                              VStr (js "stop")) ] ]) ]) |}))
           (js "Write f") plainOptions (c := 115%N) (k := js "k-test")
           (response := {| json :=
              Done (VObj [ (js "choices",
                            VArr [ VObj [ (js "message", VObj []);
                                          (js "finish_reason",
                                           VStr (js "stop")) ] ]) ]) |})
           (data := VObj [ (js "choices",
                            VArr [ VObj [ (js "message", VObj []);
                                          (js "finish_reason",
                                           VStr (js "stop")) ] ]) ])
           (error := VUndefined)
           (choice := VObj [ (js "message", VObj []);
                             (js "finish_reason", VStr (js "stop")) ])
           (message := VObj []) (content := VUndefined));
    reflexivity.
Defined.

(* ================================================================== *)
(** * Further properties of includeDirective                           *)
(* ================================================================== *)

Lemma take_while_forallb (f : code_unit -> bool) (s : jsstring) :
  forallb f (take_while f s) = true.
Proof.
  induction s as [|x s IH]; simpl; [reflexivity|].
  destruct (f x) eqn:E; simpl; [rewrite E; exact IH | reflexivity].
Qed.

Lemma take_while_rest (f : code_unit -> bool) (s : jsstring) :
  exists post, s = take_while f s ++ post
               /\ match post with [] => True | c :: _ => f c = false end.
Proof.
  induction s as [|x s (post & IH & Hpost)]; simpl.
  - exists []. split; [reflexivity | exact I].
  - destruct (f x) eqn:E.
    + exists post. split; [simpl; f_equal; exact IH | exact Hpost].
    + exists (x :: s). split; [reflexivity | exact E].
Qed.

Lemma match_here_shape (s p : jsstring) :
  match_here s = Some p ->
  p <> [] /\ forallb path_char p = true
  /\ exists post, s = (token ++ p) ++ post
                  /\ match post with
                     | [] => True
                     | c :: _ => path_char c = false
                     end.
Proof.
  unfold match_here.
  destruct (strip_prefix token s) as [rest|] eqn:E; [|discriminate].
  apply strip_prefix_Some in E.
  pose proof (take_while_forallb path_char rest) as Hall.
  destruct (take_while_rest path_char rest) as (post & Hrest & Hpost).
  destruct (take_while path_char rest) as [|x p'] eqn:T; [discriminate|].
  intros H; injection H as <-.
  split; [discriminate|]. split; [exact Hall|].
  exists post. split; [|exact Hpost].
  rewrite E, Hrest, app_assoc. reflexivity.
Qed.

Lemma search_shape (s : jsstring) :
  forall i m, search s i = Some m ->
    i <= index m
    /\ match0 m = token ++ match1 m
    /\ match1 m <> [] /\ forallb path_char (match1 m) = true
    /\ (exists post, skipn (index m - i) s = match0 m ++ post
                     /\ match post with
                        | [] => True
                        | c :: _ => path_char c = false
                        end)
    /\ forall j, j < index m - i -> match_here (skipn j s) = None.
Proof.
  induction s as [|c s IH]; intros i m; cbn [search].
  - destruct (match_here []) eqn:E; [discriminate E | discriminate].
  - destruct (match_here (c :: s)) as [p|] eqn:E.
    + intros H; injection H as <-; cbn [index match0 match1].
      apply match_here_shape in E. destruct E as (Hne & Hall & post & Hs & Hpost).
      rewrite Nat.sub_diag.
      split; [lia|]. split; [reflexivity|]. split; [exact Hne|].
      split; [exact Hall|]. split.
      * exists post. split; [exact Hs | exact Hpost].
      * intros j Hj. lia.
    + intros H.
      destruct (IH _ _ H) as (Hi & Hm & Hne & Hall & (post & Hs & Hpost) & Hleft).
      split; [lia|]. split; [exact Hm|]. split; [exact Hne|].
      split; [exact Hall|]. split.
      * exists post. replace (index m - i) with (S (index m - S i)) by lia.
        split; [exact Hs | exact Hpost].
      * intros [|j] Hj; [exact E|]. cbn [skipn]. apply Hleft. lia.
Qed.

(** X7: what [exec] finds from [lastIndex] on is the leftmost occurrence of
    the token followed by a path: the path is not empty, holds no white
    space and no double quote, and ends at the end of the text or before
    such a character. *)
Theorem exec_match_shape (s : jsstring) (lastIndex : nat) (m : RegExpMatch) :
  exec s lastIndex = Some m ->
  lastIndex <= index m
  /\ match0 m = token ++ match1 m
  /\ match1 m <> [] /\ forallb path_char (match1 m) = true
  /\ (exists post, skipn (index m) s = match0 m ++ post
                   /\ match post with
                      | [] => True
                      | c :: _ => path_char c = false
                      end)
  /\ forall j, lastIndex <= j < index m -> match_here (skipn j s) = None.
Proof.
  unfold exec. destruct (length s <? lastIndex); [discriminate|].
  intros H. apply search_shape in H.
  destruct H as (Hi & Hm & Hne & Hall & (post & Hs & Hpost) & Hleft).
  split; [exact Hi|]. split; [exact Hm|]. split; [exact Hne|].
  split; [exact Hall|]. split.
  - exists post. rewrite skipn_skipn in Hs.
    replace (index m - lastIndex + lastIndex) with (index m) in Hs by lia.
    split; [exact Hs | exact Hpost].
  - intros j Hj. specialize (Hleft (j - lastIndex)).
    rewrite skipn_skipn in Hleft.
    replace (j - lastIndex + lastIndex) with j in Hleft by lia.
    apply Hleft. lia.
Qed.

Lemma exec_match_shape_witness :
  match1 {| index := 4; match0 := js "codespin:include:src/a.ts";
            match1 := js "src/a.ts" |} <> []
  /\ 2 <= 4.
Proof.
  pose proof (@exec_match_shape (js "see codespin:include:src/a.ts now") 2
                {| index := 4; match0 := js "codespin:include:src/a.ts";
                   match1 := js "src/a.ts" |} eq_refl)
    as (Hi & _ & Hne & _).
  split; [exact Hne | exact Hi].
Defined.

Lemma getSubstitution_dollarFree (matched before after repl : jsstring) :
  dollarFree repl = true ->
  getSubstitution matched before after repl = repl.
Proof.
  induction repl as [|c r IH]; simpl; [reflexivity|].
  intros H. apply andb_true_iff in H. destruct H as [Hc Hr].
  apply negb_true_iff in Hc. rewrite Hc, (IH Hr). reflexivity.
Qed.

(** X8: one turn of the loop.  The first directive of a call, whose file
    holds no directive and no dollar sign, is replaced where it stands by
    the text of the file; the call returns that text when the search that
    resumes at the old [lastIndex] finds nothing. *)
Theorem includeDirective_single_expansion (h : Host) (fuel : nat)
    (contents : jsstring) (promptFilePath baseDir : option jsstring)
    (m : RegExpMatch) (fullPath includedContent : jsstring) :
  exec contents 0 = Some m ->
  resolveProjectFilePath h (match1 m) (originDir h promptFilePath) missingGit
  = inr fullPath ->
  readFile h fullPath = inr includedContent ->
  contains_directive includedContent = false ->
  dollarFree includedContent = true ->
  exec (firstn (index m) contents ++ includedContent
        ++ skipn (end_index m) contents) (end_index m) = None ->
  includeDirective h (S (S fuel)) contents promptFilePath baseDir
  = Returned (firstn (index m) contents ++ includedContent
              ++ skipn (end_index m) contents).
Proof.
  intros Hm Hres Hread Hinc Hdollar Hnext.
  assert (R : replace contents (match0 m) includedContent
              = firstn (index m) contents ++ includedContent
                ++ skipn (end_index m) contents).
  { rewrite (first_replacement_in_place contents includedContent Hm).
    rewrite getSubstitution_dollarFree by exact Hdollar. reflexivity. }
  rewrite <- R in *.
  apply (includeDirective_resumes_at_old_index h fuel contents promptFilePath
           baseDir Hm Hres Hread Hinc Hnext).
Qed.

Lemma includeDirective_single_expansion_witness :
  includeDirective demoHost 2 (js "x codespin:include:long.txt y") None None
  = Returned (js "x a rather long line of text, longer than a directive y").
Proof.
  apply (@includeDirective_single_expansion demoHost 0
           (js "x codespin:include:long.txt y") None None
           {| index := 2; match0 := js "codespin:include:long.txt";
              match1 := js "long.txt" |}
           (js "./long.txt")
           (js "a rather long line of text, longer than a directive"));
    reflexivity.
Defined.

(** X9: the three ways in which the first directive of a call can fail.  A
    path that cannot be resolved throws the error of the resolver as it is;
    a file that cannot be read throws the error that names the resolved
    path and the cause; an error thrown while the included file is expanded
    is thrown on as it is.  Nothing is caught on the way up. *)
Theorem includeDirective_first_directive_errors (h : Host) (fuel : nat)
    (contents : jsstring) (promptFilePath baseDir : option jsstring)
    (m : RegExpMatch) :
  exec contents 0 = Some m ->
  (forall e,
      resolveProjectFilePath h (match1 m) (originDir h promptFilePath)
        missingGit = inl e ->
      includeDirective h (S fuel) contents promptFilePath baseDir = Thrown e)
  /\ (forall fullPath cause,
        resolveProjectFilePath h (match1 m) (originDir h promptFilePath)
          missingGit = inr fullPath ->
        readFile h fullPath = inl cause ->
        includeDirective h (S fuel) contents promptFilePath baseDir
        = Thrown (js "Failed to include file from path: " ++ fullPath
                  ++ js ". Error: " ++ cause))
  /\ (forall fullPath includedContent e,
        resolveProjectFilePath h (match1 m) (originDir h promptFilePath)
          missingGit = inr fullPath ->
        readFile h fullPath = inr includedContent ->
        includeDirective h fuel includedContent (Some fullPath) baseDir
        = Thrown e ->
        includeDirective h (S fuel) contents promptFilePath baseDir
        = Thrown e).
Proof.
  intros Hm. unfold includeDirective. cbn [includeLoop]. rewrite Hm.
  split; [|split].
  - intros e Hres. rewrite Hres. reflexivity.
  - intros fullPath cause Hres Hread. rewrite Hres, Hread. reflexivity.
  - intros fullPath includedContent e Hres Hread Hin.
    rewrite Hres, Hread, Hin. reflexivity.
Qed.

Lemma includeDirective_first_directive_errors_witness :
  includeDirective noGitHost 1 (js "see codespin:include:/src/a.ts") None None
  = Thrown missingGit
  /\ includeDirective brokenHost 2 (js "codespin:include:broken.txt") None None
     = Thrown (includeError (js "./missing.txt")
                 (js "ENOENT: no such file or directory, open './missing.txt'")).
Proof.
  split.
  - apply (proj1 (@includeDirective_first_directive_errors noGitHost 0
                    (js "see codespin:include:/src/a.ts") None None
                    {| index := 4; match0 := js "codespin:include:/src/a.ts";
                       match1 := js "/src/a.ts" |} eq_refl));
      reflexivity.
  - apply (proj2 (proj2 (@includeDirective_first_directive_errors brokenHost 1
                    (js "codespin:include:broken.txt") None None
                    {| index := 0; match0 := js "codespin:include:broken.txt";
                       match1 := js "broken.txt" |} eq_refl))
             (js "./broken.txt") (js "see codespin:include:missing.txt"));
      reflexivity.
Defined.

(** X11: every error an expansion throws is the error of a failed path
    resolution or the error of a failed read, with the message that names
    the path and the cause, at whatever depth it happened. *)
Theorem includeDirective_thrown_errors (h : Host) (fuel : nat)
    (contents : jsstring) (promptFilePath baseDir : option jsstring)
    (e : jsstring) :
  includeDirective h fuel contents promptFilePath baseDir = Thrown e ->
  (exists p dir, resolveProjectFilePath h p dir missingGit = inl e)
  \/ (exists fullPath cause,
        readFile h fullPath = inl cause
        /\ e = js "Failed to include file from path: " ++ fullPath
               ++ js ". Error: " ++ cause).
Proof.
  unfold includeDirective. apply includeLoop_thrown.
Qed.

Lemma includeDirective_thrown_errors_witness :
  (exists p dir, resolveProjectFilePath demoHost p dir missingGit
                 = inl (includeError (js "./missing.txt")
                          (js "ENOENT: no such file or directory, open './missing.txt'")))
  \/ (exists fullPath cause,
        readFile demoHost fullPath = inl cause
        /\ includeError (js "./missing.txt")
             (js "ENOENT: no such file or directory, open './missing.txt'")
           = js "Failed to include file from path: " ++ fullPath
             ++ js ". Error: " ++ cause).
Proof.
  apply (@includeDirective_thrown_errors demoHost 1
           (js "codespin:include:missing.txt") None None).
  reflexivity.
Defined.

Lemma includeLoop_self_include (h : Host) (contents fullPath : jsstring)
    (m : RegExpMatch) :
  exec contents 0 = Some m ->
  (forall origin,
      resolveProjectFilePath h (match1 m) (originDir h origin) missingGit
      = inr fullPath) ->
  readFile h fullPath = inr contents ->
  forall fuel promptFilePath baseDir,
    includeLoop h fuel contents 0 promptFilePath baseDir = OutOfFuel.
Proof.
  intros Hm Hres Hread.
  induction fuel as [|fuel IH]; intros promptFilePath baseDir; [reflexivity|].
  cbn [includeLoop]. rewrite Hm, Hres, Hread, IH. reflexivity.
Qed.

(** X12: a file that includes itself never comes back: when the first
    directive of a text resolves, from every origin, to a file that holds
    that very text, the call neither returns nor throws, however long it
    runs. *)
Theorem includeDirective_self_include (h : Host) (contents fullPath : jsstring)
    (m : RegExpMatch) :
  exec contents 0 = Some m ->
  (forall origin,
      resolveProjectFilePath h (match1 m) (originDir h origin) missingGit
      = inr fullPath) ->
  readFile h fullPath = inr contents ->
  forall fuel promptFilePath baseDir,
    includeDirective h fuel contents promptFilePath baseDir = OutOfFuel.
Proof.
  intros Hm Hres Hread fuel promptFilePath baseDir.
  unfold includeDirective.
  apply (@includeLoop_self_include h contents fullPath m Hm Hres Hread).
Qed.

Lemma includeLoop_empty_origin (h : Host) (fuel : nat) :
  forall contents lastIndex baseDir,
    includeLoop h fuel contents lastIndex (Some []) baseDir
    = includeLoop h fuel contents lastIndex None baseDir.
Proof.
  induction fuel as [|fuel IH]; intros contents lastIndex baseDir;
    [reflexivity|].
  cbn [includeLoop originDir].
  destruct (exec contents lastIndex) as [m|]; [|reflexivity].
  destruct (resolveProjectFilePath h (match1 m) (cwd h) missingGit)
    as [e|fullPath]; [reflexivity|].
  destruct (readFile h fullPath) as [cause|includedContent]; [reflexivity|].
  destruct (includeLoop h fuel includedContent 0 (Some fullPath) baseDir);
    [apply IH | reflexivity | reflexivity].
Qed.

(** X13: an empty origin path counts as no origin path: paths are then
    resolved from the current working directory, not from the directory
    name of the empty path. *)
Theorem includeDirective_empty_origin (h : Host) (fuel : nat)
    (contents : jsstring) (baseDir : option jsstring) :
  includeDirective h fuel contents (Some []) baseDir
  = includeDirective h fuel contents None baseDir.
Proof.
  unfold includeDirective. apply includeLoop_empty_origin.
Qed.

Lemma includeDirective_self_include_witness :
  includeDirective demoHost 1000 (js "again: codespin:include:loop.txt")
    None None
  = OutOfFuel.
Proof.
  apply (@includeDirective_self_include demoHost
           (js "again: codespin:include:loop.txt") (js "./loop.txt")
           {| index := 7; match0 := js "codespin:include:loop.txt";
              match1 := js "loop.txt" |});
    try reflexivity.
  intros [[|c p]|]; reflexivity.
Defined.

(* ================================================================== *)
(** * Properties of the generate command                               *)
(* ================================================================== *)

Module GenerateProofs.
Import Effects Generate.

(** ** The file lists *)

Lemma includes_In (xs : list jsstring) (x : jsstring) :
  includes xs x = true <-> In x xs.
Proof.
  unfold includes. rewrite existsb_exists. split.
  - intros (y & Hy & E). apply eqb_eq in E. subst y. exact Hy.
  - intros H. exists x. split; [exact H | apply eqb_eq; reflexivity].
Qed.

Lemma includes_false (xs : list jsstring) (x : jsstring) :
  includes xs x = false <-> ~ In x xs.
Proof.
  rewrite <- includes_In. destruct (includes xs x); split; intros H;
    try discriminate; try reflexivity.
  exfalso; apply H; reflexivity.
Qed.

Lemma In_addAll (arr : list jsstring) :
  forall set x, In x (addAll set arr) <-> In x set \/ In x arr.
Proof.
  induction arr as [|y arr IH]; intros set x; cbn [addAll].
  - simpl. tauto.
  - rewrite IH. destruct (includes set y) eqn:E.
    + apply includes_In in E. simpl. split.
      * intros [H|H]; auto.
      * intros [H|[H|H]]; auto. subst y. auto.
    + rewrite in_app_iff. simpl. tauto.
Qed.

Lemma NoDup_addAll (arr : list jsstring) :
  forall set, NoDup set -> NoDup (addAll set arr).
Proof.
  induction arr as [|y arr IH]; intros set H; cbn [addAll]; [exact H|].
  apply IH. destruct (includes set y) eqn:E; [exact H|].
  apply includes_false in E.
  apply NoDup_app; [exact H | constructor; [intros [] | constructor] |].
  intros a Ha [Hy|[]]. subst a. contradiction.
Qed.

Lemma addAll_app (a b : list jsstring) :
  forall set, addAll set (a ++ b) = addAll (addAll set a) b.
Proof.
  induction a as [|x a IH]; intros set; cbn [addAll app]; [reflexivity|].
  apply IH.
Qed.

Lemma includes_ext (xs ys : list jsstring) (x : jsstring) :
  (In x xs <-> In x ys) -> includes xs x = includes ys x.
Proof.
  intros H. destruct (includes ys x) eqn:E.
  - apply includes_In, H, includes_In, E.
  - apply includes_false. rewrite H. apply includes_false, E.
Qed.

Lemma addAll_fresh (arr : list jsstring) :
  forall set, NoDup (set ++ arr) -> addAll set arr = set ++ arr.
Proof.
  induction arr as [|y arr IH]; intros set H; cbn [addAll].
  - symmetry; apply app_nil_r.
  - assert (E : includes set y = false).
    { apply includes_false. intros Hy.
      apply NoDup_remove_2 in H. apply H, in_app_iff. auto. }
    rewrite E, IH, <- app_assoc; [reflexivity|].
    rewrite <- app_assoc. exact H.
Qed.

(** X14: [removeDuplicates] returns each string of its argument once, and
    nothing else. *)
Theorem removeDuplicates_elements (arr : list jsstring) :
  NoDup (removeDuplicates arr)
  /\ forall x, In x (removeDuplicates arr) <-> In x arr.
Proof.
  unfold removeDuplicates. split.
  - apply NoDup_addAll. constructor.
  - intros x. rewrite In_addAll. simpl. tauto.
Qed.

(** X15: [removeDuplicates] keeps the first occurrence of each string, in
    the order of the argument: a string added at the end is dropped when it
    occurred before and is last otherwise. *)
Theorem removeDuplicates_order (arr : list jsstring) (x : jsstring) :
  removeDuplicates (arr ++ [x])
  = if includes arr x then removeDuplicates arr
    else removeDuplicates arr ++ [x].
Proof.
  unfold removeDuplicates. rewrite addAll_app. cbn [addAll].
  rewrite (includes_ext (addAll [] arr) arr x); [reflexivity|].
  rewrite In_addAll. simpl. tauto.
Qed.

(** X16: a list without duplicates is returned as it is, so removing
    duplicates twice is the same as once. *)
Theorem removeDuplicates_idempotent (arr : list jsstring) :
  (NoDup arr -> removeDuplicates arr = arr)
  /\ removeDuplicates (removeDuplicates arr) = removeDuplicates arr.
Proof.
  assert (F : forall l, NoDup l -> removeDuplicates l = l)
    by (intros l H; unfold removeDuplicates; rewrite addAll_fresh; auto).
  split; [apply F|].
  apply F, NoDup_addAll. constructor.
Qed.

Lemma removeDuplicates_idempotent_witness :
  removeDuplicates [js "a.ts"; js "b.ts"] = [js "a.ts"; js "b.ts"].
Proof.
  apply (proj1 (removeDuplicates_idempotent [js "a.ts"; js "b.ts"])).
  repeat constructor; simpl; intuition discriminate.
Defined.

(** X17: the files to include are exactly the files named in the prompt
    settings or on the command line that are not excluded, each once. *)
Theorem filesToInclude_spec
    (settingsInclude argsInclude argsExclude : option (list jsstring)) :
  NoDup (filesToInclude settingsInclude argsInclude argsExclude)
  /\ forall x,
       In x (filesToInclude settingsInclude argsInclude argsExclude)
       <-> (In x (orEmpty settingsInclude) \/ In x (orEmpty argsInclude))
           /\ ~ In x (orEmpty argsExclude).
Proof.
  unfold filesToInclude. split.
  - apply NoDup_filter. unfold removeDuplicates. apply NoDup_addAll. constructor.
  - intros x. rewrite filter_In, negb_true_iff, includes_false.
    unfold removeDuplicates. rewrite In_addAll, in_app_iff. simpl. tauto.
Qed.

(** ** Single-file prompts *)

Lemma strip_prefix_rev (suffix s r : jsstring) :
  strip_prefix (rev suffix) (rev s) = Some r <-> s = rev r ++ suffix.
Proof.
  split.
  - intros H. apply strip_prefix_Some in H.
    rewrite <- (rev_involutive s), H, rev_app_distr, rev_involutive.
    reflexivity.
  - intros ->. rewrite rev_app_distr, rev_involutive. apply strip_prefix_app.
Qed.

Lemma strip_prefix_None_rev (suffix s : jsstring) :
  strip_prefix (rev suffix) (rev s) = None ->
  forall stem, s <> stem ++ suffix.
Proof.
  intros H stem E.
  assert (H' : strip_prefix (rev suffix) (rev s) = Some (rev stem))
    by (apply strip_prefix_rev; rewrite rev_involutive; exact E).
  congruence.
Qed.

Lemma take_while_app_stop (f : code_unit -> bool) (a b : jsstring) :
  forallb f a = true ->
  match b with [] => True | c :: _ => f c = false end ->
  take_while f (a ++ b) = a.
Proof.
  intros Ha Hb. induction a as [|x a IH]; simpl.
  - destruct b as [|c b]; [reflexivity|]. simpl. rewrite Hb. reflexivity.
  - simpl in Ha. apply andb_true_iff in Ha. destruct Ha as [Hx Ha].
    rewrite Hx, (IH Ha). reflexivity.
Qed.

Lemma forallb_rev (f : code_unit -> bool) (l : jsstring) :
  forallb f (rev l) = forallb f l.
Proof.
  destruct (forallb f l) eqn:E.
  - rewrite forallb_forall in *. intros x Hx. apply E, in_rev, Hx.
  - destruct (forallb f (rev l)) eqn:E'; [|reflexivity].
    rewrite forallb_forall in E'.
    assert (forallb f l = true)
      by (apply forallb_forall; intros x Hx; apply E', in_rev;
          rewrite rev_involutive; exact Hx).
    congruence.
Qed.

(** X18: the test for single-file prompts holds exactly for the paths that
    end with a dot, an extension of one or more letters or digits, and
    [.prompt.md]. *)
Theorem singleFilePattern_spec (s : jsstring) :
  singleFilePattern s = true
  <-> exists pre ext,
        s = pre ++ [46%N] ++ ext ++ promptSuffix
        /\ ext <> [] /\ forallb isAlnum ext = true.
Proof.
  unfold singleFilePattern. split.
  - destruct (strip_prefix (rev promptSuffix) (rev s)) as [r|] eqn:E;
      [|discriminate].
    apply strip_prefix_rev in E.
    pose proof (take_while_forallb isAlnum r) as Hall.
    destruct (take_while_rest isAlnum r) as (post & Hr & _).
    destruct (take_while isAlnum r) as [|x ext] eqn:T; [discriminate|].
    assert (Hs : skipn (length (x :: ext)) r = post).
    { rewrite Hr at 1. rewrite skipn_app, skipn_all, Nat.sub_diag.
      reflexivity. }
    rewrite Hs. destruct post as [|c rest]; [discriminate|].
    intros Hc. apply N.eqb_eq in Hc. subst c.
    exists (rev rest), (rev (x :: ext)).
    split; [|split].
    + rewrite E, Hr, rev_app_distr. cbn [rev]. rewrite <- !app_assoc.
      reflexivity.
    + intros H. apply (f_equal (@rev _)) in H.
      rewrite rev_involutive in H. discriminate H.
    + rewrite forallb_rev. exact Hall.
  - intros (pre & ext & -> & Hne & Hall).
    match goal with
    | |- context [strip_prefix ?a ?b] =>
        assert (E : strip_prefix a b = Some (rev ext ++ 46%N :: rev pre))
    end.
    { apply strip_prefix_rev. rewrite rev_app_distr, rev_involutive.
      cbn [rev]. rewrite rev_involutive, <- !app_assoc. reflexivity. }
    rewrite E.
    rewrite (take_while_app_stop isAlnum (rev ext) (46%N :: rev pre))
      by (rewrite ?forallb_rev; auto).
    destruct (rev ext) as [|x e] eqn:R.
    + exfalso. apply Hne. rewrite <- (rev_involutive ext), R. reflexivity.
    + rewrite skipn_app, skipn_all, Nat.sub_diag. reflexivity.
Qed.

(** X19: removing the prompt suffix is the inverse of adding it: a path that
    ends with [.prompt.md] loses exactly that suffix, any other path is
    unchanged. *)
Theorem removePromptSuffix_spec (s : jsstring) :
  (exists stem, s = stem ++ promptSuffix /\ removePromptSuffix s = stem)
  \/ ((forall stem, s <> stem ++ promptSuffix) /\ removePromptSuffix s = s).
Proof.
  unfold removePromptSuffix, stripSuffix.
  destruct (strip_prefix (rev promptSuffix) (rev s)) as [r|] eqn:E.
  - left. exists (rev r). split; [apply strip_prefix_rev, E | reflexivity].
  - right. split; [apply strip_prefix_None_rev, E | reflexivity].
Qed.

(** ** Traces and results of the command *)

Lemma eff_result_bind {E A B} (m : T E A) (k : A -> T E B) :
  result (bind m k)
  = match result m with
    | Done a => result (k a)
    | Raise e => Raise e
    end.
Proof.
  destruct m as [t [a|e]]; unfold bind, result; cbn [snd]; [|reflexivity].
  destruct (k a); reflexivity.
Qed.

Lemma eff_trace_bind {E A B} (m : T E A) (k : A -> T E B) :
  trace (bind m k)
  = trace m ++ match result m with
               | Done a => trace (k a)
               | Raise _ => []
               end.
Proof.
  destruct m as [t [a|e]]; unfold bind, result, trace; cbn [fst snd].
  - destruct (k a); reflexivity.
  - symmetry; apply app_nil_r.
Qed.

Lemma eff_result_when {E} (b : bool) (m : T E unit) :
  result m = Done tt -> result (when b m) = Done tt.
Proof. destruct b; simpl; auto. Qed.

Lemma always_ret {E A} (P : E -> Prop) (a : A) : always P (ret a).
Proof. intros ev []. Qed.

Lemma always_call {E A} (P : E -> Prop) (a : attempt A) : always P (call a).
Proof. intros ev []. Qed.

Lemma always_throw {E A} (P : E -> Prop) (message : jsstring) :
  always P (@throw E A message).
Proof. intros ev []. Qed.

Lemma always_emit {E} (P : E -> Prop) (ev : E) : P ev -> always P (emit ev).
Proof. intros H ev' [<-|[]]. exact H. Qed.

Lemma always_bind {E A B} (P : E -> Prop) (m : T E A) (k : A -> T E B) :
  always P m ->
  (forall a, result m = Done a -> always P (k a)) ->
  always P (bind m k).
Proof.
  intros Hm Hk ev. rewrite eff_trace_bind, in_app_iff. intros [H|H].
  - apply Hm, H.
  - destruct (result m) as [a|e] eqn:R; [|destruct H].
    apply (Hk a eq_refl), H.
Qed.

Lemma always_forEach {E A} (P : E -> Prop) (xs : list A)
    (body : A -> T E unit) :
  (forall x, always P (body x)) -> always P (forEach xs body).
Proof.
  intros H. induction xs as [|x xs IH]; cbn [forEach].
  - apply always_ret.
  - apply always_bind; [apply H | intros _ _; exact IH].
Qed.

Lemma always_weaken {E A} (P Q : E -> Prop) (m : T E A) :
  (forall ev, P ev -> Q ev) -> always P m -> always Q m.
Proof. intros H Hm ev Hev. apply H, Hm, Hev. Qed.

(** Walks through a command: what is left are the calls it emits. *)
Ltac walk :=
  lazymatch goal with
  | |- always _ (Effects.bind _ _) =>
      apply always_bind; [walk | intros ? ?; walk]
  | |- always _ (Effects.ret _) => apply always_ret
  | |- always _ (Effects.call _) => apply always_call
  | |- always _ (Effects.throw _) => apply always_throw
  | |- always _ (Effects.forEach _ _) => apply always_forEach; intros ?; walk
  | |- always _ (Effects.when ?b _) =>
      destruct b eqn:?; cbn [Effects.when]; walk
  | |- always _ (match ?x with _ => _ end) => destruct x eqn:?; walk
  | |- always _ (let _ := _ in _) => cbv zeta; walk
  | _ => idtac
  end.

(** Up to the evaluated prompt the command acts on nothing outside: the only
    call it can make is [exception] for a missing prompt. *)
Lemma prepare_quiet (env : Env) (args : Args.t) :
  always (fun ev => ev = Exception noPromptMessage) (prepare env args).
Proof.
  unfold prepare, findSourceFileName, findTemplatePath, callException.
  walk; try (apply always_emit; reflexivity).
  (* the branch of the invariant exception *)
  all: exfalso;
    match goal with
    | H : result (ret false) = Done true |- _ => discriminate H
    end.
Qed.

Lemma deliver_calls (env : Env) (args : Args.t) (p : Prepared) :
  always (deliverCall env args p) (deliver env args p).
Proof.
  unfold deliver, writeToConsole, printFile.
  walk; apply always_emit; cbn [deliverCall];
    repeat match goal with
           | |- _ /\ _ => split
           | |- True => exact I
           | |- exists _, _ => eexists; reflexivity
           | |- _ <> _ => discriminate
           | H : result (call _) = Done _ |- _ = Done _ => exact H
           | |- _ = _ => assumption || reflexivity
           end.
Qed.

Lemma generate_calls (env : Env) (args : Args.t) :
  always (fun ev => ev = Exception noPromptMessage
                    \/ exists p, result (prepare env args) = Done p
                                 /\ deliverCall env args p ev)
    (generate env args).
Proof.
  unfold generate. apply always_bind.
  - apply (always_weaken (P := fun ev => ev = Exception noPromptMessage));
      [auto | apply prepare_quiet].
  - intros p Hp.
    apply (always_weaken (P := deliverCall env args p));
      [eauto | apply deliver_calls].
Qed.

Lemma generate_result (env : Env) (args : Args.t) :
  result (generate env args)
  = match result (prepare env args) with
    | Done p => result (deliver env args p)
    | Raise e => Raise e
    end.
Proof. unfold generate. apply eff_result_bind. Qed.

Lemma notOpenai_false (api : option jsstring) :
  notOpenai api = false <-> api = Some (js "openai").
Proof.
  destruct api as [a|]; simpl; [|split; discriminate].
  rewrite negb_false_iff, eqb_eq. split; congruence.
Qed.

Lemma promptOnly_false (args : Args.t) :
  promptOnly args = false
  <-> toBoolean (Args.printPrompt args) = false
      /\ Args.writePrompt args = None.
Proof.
  unfold promptOnly. rewrite orb_false_iff.
  destruct (Args.writePrompt args); split; intros [H1 H2];
    (split; [exact H1|]); congruence.
Qed.

(** ** The source file of a single-file prompt *)

(** X20: the source file of a prompt is the path of the prompt file without
    [.prompt.md]; it is only used when the prompt file has the form of a
    single-file prompt, [--multi] is off and the source file exists. *)
Theorem findSourceFileName_spec (env : Env) (args : Args.t)
    (sourceFileName : jsstring) :
  result (findSourceFileName env args) = Done (Some sourceFileName) ->
  Args.promptFile args = Some (sourceFileName ++ promptSuffix)
  /\ singleFilePattern (sourceFileName ++ promptSuffix) = true
  /\ toBoolean (Args.multi args) = false
  /\ pathExists env sourceFileName = Done true.
Proof.
  unfold findSourceFileName.
  destruct (Args.promptFile args) as [promptFile|]; [|discriminate].
  destruct (singleFilePattern promptFile) eqn:S; [|discriminate].
  destruct (toBoolean (Args.multi args)); [discriminate|]. cbn [negb].
  rewrite eff_result_bind. unfold call, result at 2. cbn [snd].
  destruct (pathExists env (removePromptSuffix promptFile))
    as [[|]|e] eqn:P; try discriminate.
  intros H; injection H as <-.
  assert (E : promptFile = removePromptSuffix promptFile ++ promptSuffix).
  { unfold removePromptSuffix, stripSuffix. unfold singleFilePattern in S.
    destruct (strip_prefix (rev promptSuffix) (rev promptFile)) as [r|] eqn:R;
      [|discriminate].
    apply strip_prefix_rev, R. }
  rewrite <- E. auto.
Qed.

Lemma findSourceFileName_spec_witness :
  Args.promptFile singleFileArgs = Some (js "src/f.ts" ++ promptSuffix)
  /\ pathExists (demoEnv (Done oneFile)) (js "src/f.ts") = Done true.
Proof.
  pose proof (@findSourceFileName_spec (demoEnv (Done oneFile)) singleFileArgs
                (js "src/f.ts") eq_refl) as (H1 & _ & _ & H2).
  split; [exact H1 | exact H2].
Defined.

(** ** What a run does and does not do *)

(** X21: the exception for the broken invariant is never raised: the branch
    that raises it needs a committed prompt file without a prompt file. *)
Theorem generate_invariant_holds (env : Env) (args : Args.t) :
  ~ In (Exception invariantMessage) (trace (generate env args)).
Proof.
  intros H. apply generate_calls in H.
  destruct H as [H | (p & _ & [])]. discriminate H.
Qed.

(** X22: the completion is requested at most under these circumstances:
    the api is [openai], neither [--print-prompt] nor [--write-prompt] is
    given, and everything before it succeeded; it gets the evaluated prompt
    and the debug flag of the command line. *)
Theorem generate_completion_call (env : Env) (args : Args.t)
    (prompt : jsstring) (model : option jsstring)
    (maxTokens : option number)
    (debug : option bool) :
  In (Completion prompt model maxTokens debug) (trace (generate env args)) ->
  Args.api args = Some (js "openai")
  /\ toBoolean (Args.printPrompt args) = false
  /\ Args.writePrompt args = None
  /\ debug = Args.debug args
  /\ exists p, result (prepare env args) = Done p
               /\ prompt = evaluatedPrompt p.
Proof.
  intros H. apply generate_calls in H.
  destruct H as [H | (p & Hp & Hpo & Hapi & -> & _ & _ & ->)];
    [discriminate H|].
  apply promptOnly_false in Hpo. destruct Hpo as [Hprint Hwrite].
  apply notOpenai_false in Hapi. eauto 10.
Qed.

Lemma generate_completion_call_witness :
  Args.api (demoArgs (Some (js "openai")) None None) = Some (js "openai")
  /\ Args.writePrompt (demoArgs (Some (js "openai")) None None) = None.
Proof.
  assert (H : In (Completion (js "Write f") (Some (js "gpt-4")) (Some (ofZ 800))
                    None)
                (trace (generate (demoEnv (Done oneFile))
                          (demoArgs (Some (js "openai")) None None))))
    by (left; reflexivity).
  pose proof (generate_completion_call _ _ _ _ _ _ H) as (H1 & _ & H2 & _).
  split; [exact H1 | exact H2].
Defined.

(** X23: the model and the budget of the request come from the command
    line when truthy there (a model that is not empty; a budget that is not
    0, -0 or NaN), else from the settings of the prompt file when truthy
    there, else from the configuration file as they are. *)
Theorem generate_completion_choices (env : Env) (args : Args.t)
    (prompt : jsstring) (model : option jsstring)
    (maxTokens : option number)
    (debug : option bool) :
  In (Completion prompt model maxTokens debug) (trace (generate env args)) ->
  exists p,
    result (prepare env args) = Done p
    /\ model
       = match truthyString (Args.model args) with
         | Some m => Some m
         | None =>
             match promptSettings p with
             | Some {| PromptSettings.model := Some (c :: m) |} =>
                 Some (c :: m)
             | _ =>
                 match config p with
                 | Some cfg => Config.model cfg
                 | None => None
                 end
             end
         end
    /\ maxTokens
       = let fromConfig :=
           match config p with
           | Some cfg => Config.maxTokens cfg
           | None => None
           end in
         let fromSettings :=
           match promptSettings p with
           | Some {| PromptSettings.maxTokens := Some n |} =>
               if truthyNumber n then Some n else fromConfig
           | _ => fromConfig
           end in
         match Args.maxTokens args with
         | Some n => if truthyNumber n then Some n else fromSettings
         | None => fromSettings
         end.
Proof.
  intros H. apply generate_calls in H.
  destruct H as [H | (p & Hp & _ & _ & _ & -> & -> & _)]; [discriminate H|].
  exists p. split; [exact Hp|]. split.
  - unfold chooseModel, orElse, truthyString, nonEmpty.
    destruct (Args.model args) as [[|c m]|];
      destruct (promptSettings p) as [[[[|c' m']|] ? ?]|]; reflexivity.
  - unfold chooseMaxTokens, orElse. cbv zeta.
    destruct (Args.maxTokens args) as [n|];
      destruct (promptSettings p) as [[? [n'|] ?]|]; cbn;
      repeat match goal with
             | |- context [if truthyNumber ?x then _ else _] =>
                 destruct (truthyNumber x) eqn:?; cbn
             end;
      reflexivity || congruence.
Qed.

Lemma generate_completion_choices_witness :
  exists p,
    result (prepare (demoEnv (Done oneFile))
              (demoArgs (Some (js "openai")) None None)) = Done p
    /\ Some (js "gpt-4")
       = match config p with
         | Some cfg => Config.model cfg
         | None => None
         end.
Proof.
  assert (H : In (Completion (js "Write f") (Some (js "gpt-4")) (Some (ofZ 800))
                    None)
                (trace (generate (demoEnv (Done oneFile))
                          (demoArgs (Some (js "openai")) None None))))
    by (left; reflexivity).
  destruct (generate_completion_choices _ _ _ _ _ _ H) as (p & Hp & Hm & _).
  exists p. split; [exact Hp|].
  vm_compute in Hp. injection Hp as <-. reflexivity.
Defined.

Lemma eff_result_emit {E} (ev : E) : result (emit ev) = Done tt.
Proof. reflexivity. Qed.

Lemma eff_result_call {E A} (a : attempt A) : result (@call E A a) = a.
Proof. reflexivity. Qed.

Lemma eff_result_throw {E A} (message : jsstring) :
  result (@throw E A message) = Raise {| error_message := message |}.
Proof. reflexivity. Qed.

Lemma debug_lines_result (b : bool) (text : jsstring) :
  result (when b (writeToConsole (Some (js "--- PROMPT ---")) ;;;
                  writeToConsole (Some text))%generate) = Done tt.
Proof. destruct b; reflexivity. Qed.

(** What the second half returns once the completion has been requested. *)
Lemma deliver_result_requested (env : Env) (args : Args.t) (p : Prepared) :
  promptOnly args = false ->
  notOpenai (Args.api args) = false ->
  result (deliver env args p)
  = match openaiCompletion env (evaluatedPrompt p) (chooseModel args p)
            (chooseMaxTokens args p) (Args.debug args) with
    | Raise e => Raise e
    | Done (Failure code message) =>
        Raise {| error_message := failureMessage code message |}
    | Done (Files files) =>
        result
          (if toBoolean (Args.write args) then
             (emit (ExtractFilesToDisk (chooseBaseDir env args p) (Files files)
                      (Args.exec args)) ;;;
              extractResult <-
                call (extractFilesToDisk env (chooseBaseDir env args p)
                        (Files files) (Args.exec args)) ;;
              when (match filter generated extractResult with
                    | [] => false | _ => true end)
                (writeToConsole
                   (Some (js "Generated "
                          ++ join (js ", ")
                               (map file (filter generated extractResult))
                          ++ js "."))) ;;;
              when (match filter (fun x => negb (generated x)) extractResult
                    with [] => false | _ => true end)
                (writeToConsole
                   (Some (js "Skipped "
                          ++ join (js ", ")
                               (map file
                                  (filter (fun x => negb (generated x))
                                     extractResult))
                          ++ js "."))))%generate
           else forEach files printFile)
    end.
Proof.
  intros Hpo Hapi. unfold deliver. cbv zeta.
  rewrite eff_result_bind, debug_lines_result, Hpo, Hapi.
  rewrite eff_result_bind, eff_result_emit, eff_result_bind, eff_result_call.
  destruct (openaiCompletion env (evaluatedPrompt p) (chooseModel args p)
              (chooseMaxTokens args p) (Args.debug args)) as [[files|code message]|e];
    reflexivity.
Qed.

(** X24: when the completion that was requested fails, the command fails:
    with the advice to raise the token budget when the code is [length],
    else with code and message; and nothing is written to disk. *)
Theorem generate_completion_failure (env : Env) (args : Args.t)
    (prompt : jsstring) (model : option jsstring)
    (maxTokens : option number)
    (debug : option bool) (code message : jsstring) :
  In (Completion prompt model maxTokens debug) (trace (generate env args)) ->
  openaiCompletion env prompt model maxTokens debug
  = Done (Failure code message) ->
  result (generate env args)
  = Raise {| error_message :=
               if JsString.eqb code (js "length") then
                 js "Ran out of tokens. Increase token size by specifying the --max-tokens argument."
               else code ++ js ": " ++ message |}
  /\ (forall baseDir r exec,
        ~ In (ExtractFilesToDisk baseDir r exec) (trace (generate env args)))
  /\ (forall path text,
        ~ In (WriteToFile path text) (trace (generate env args))).
Proof.
  intros H F. apply generate_calls in H.
  destruct H as [H | (p & Hp & Hpo & Hapi & -> & -> & -> & ->)];
    [discriminate H|].
  split; [|split].
  - rewrite generate_result, Hp, (deliver_result_requested env args p Hpo Hapi),
      F.
    reflexivity.
  - intros baseDir r exec H. apply generate_calls in H.
    destruct H as [H | (p' & Hp' & _ & _ & _ & _ & _ & (files & ->) & R)];
      [discriminate H|].
    assert (p' = p) by congruence. subst p'. congruence.
  - intros path text H. apply generate_calls in H.
    destruct H as [H | (p' & _ & Hw & _)]; [discriminate H|].
    apply promptOnly_false in Hpo. destruct Hpo as [_ Hpo]. congruence.
Qed.

Lemma generate_completion_failure_witness :
  result (generate (demoEnv (Done (Failure (js "length") (js "length"))))
            (demoArgs (Some (js "openai")) (Some true) None))
  = Raise {| error_message :=
       js "Ran out of tokens. Increase token size by specifying the --max-tokens argument." |}.
Proof.
  assert (H : In (Completion (js "Write f") (Some (js "gpt-4")) (Some (ofZ 800))
                    None)
                (trace (generate
                          (demoEnv (Done (Failure (js "length") (js "length"))))
                          (demoArgs (Some (js "openai")) (Some true) None))))
    by (left; reflexivity).
  apply (proj1 (generate_completion_failure _ _ _ _ _ _ H eq_refl)).
Defined.

(** X25: files are written to disk only with [--write], after a completion
    that returned files, with the [--exec] command of the command line, and
    under [--base-dir] when it is given and not empty. *)
Theorem generate_extract_call (env : Env) (args : Args.t)
    (baseDir : jsstring) (completionResult : CompletionResult)
    (exec : option jsstring) :
  In (ExtractFilesToDisk baseDir completionResult exec)
     (trace (generate env args)) ->
  toBoolean (Args.write args) = true
  /\ Args.api args = Some (js "openai")
  /\ exec = Args.exec args
  /\ (exists files, completionResult = Files files)
  /\ (forall c dir, Args.baseDir args = Some (c :: dir) -> baseDir = c :: dir)
  /\ exists prompt model maxTokens,
       In (Completion prompt model maxTokens (Args.debug args))
          (trace (generate env args))
       /\ openaiCompletion env prompt model maxTokens (Args.debug args)
          = Done completionResult.
Proof.
  intros H. apply generate_calls in H.
  destruct H as [H | (p & Hp & Hpo & Hapi & Hw & -> & -> & Hf & R)];
    [discriminate H|].
  split; [exact Hw|]. split; [apply notOpenai_false, Hapi|].
  split; [reflexivity|]. split; [exact Hf|]. split.
  - intros c dir Hb. unfold chooseBaseDir. rewrite Hb. reflexivity.
  - exists (evaluatedPrompt p), (chooseModel args p), (chooseMaxTokens args p).
    split; [|exact R].
    unfold generate. rewrite eff_trace_bind, Hp. apply in_app_iff. right.
    unfold deliver. cbv zeta. rewrite eff_trace_bind, debug_lines_result.
    apply in_app_iff. right. rewrite Hpo, Hapi.
    rewrite eff_trace_bind. apply in_app_iff. left. left. reflexivity.
Qed.

Lemma generate_extract_call_witness :
  toBoolean (Args.write (demoArgs (Some (js "openai")) (Some true) None)) = true
  /\ exists files, oneFile = Files files.
Proof.
  assert (H : In (ExtractFilesToDisk (js "/work") oneFile None)
                (trace (generate (demoEnv (Done oneFile))
                          (demoArgs (Some (js "openai")) (Some true) None))))
    by (right; left; reflexivity).
  pose proof (generate_extract_call _ _ _ _ _ H) as (H1 & _ & _ & H2 & _).
  split; [exact H1 | exact H2].
Defined.

(** X26: the only file the command itself writes is the one named by
    [--write-prompt]; it holds the evaluated prompt, and a run that writes
    it requests no completion. *)
Theorem generate_write_prompt (env : Env) (args : Args.t)
    (path text : jsstring) :
  In (WriteToFile path text) (trace (generate env args)) ->
  Args.writePrompt args = Some path /\ path <> []
  /\ (exists p, result (prepare env args) = Done p
                /\ text = evaluatedPrompt p)
  /\ forall prompt model maxTokens debug,
       ~ In (Completion prompt model maxTokens debug)
           (trace (generate env args)).
Proof.
  intros H. apply generate_calls in H.
  destruct H as [H | (p & Hp & Hw & Hne & ->)]; [discriminate H|].
  split; [exact Hw|]. split; [exact Hne|]. split; [eauto|].
  intros prompt model maxTokens debug H. apply generate_calls in H.
  destruct H as [H | (p' & _ & Hpo & _)]; [discriminate H|].
  apply promptOnly_false in Hpo. destruct Hpo as [_ Hpo]. congruence.
Qed.

Lemma generate_write_prompt_witness :
  Args.writePrompt (demoArgs (Some (js "openai")) None (Some (js "out.md")))
  = Some (js "out.md").
Proof.
  assert (H : In (WriteToFile (js "out.md") (js "Write f"))
                (trace (generate (demoEnv (Done oneFile))
                          (demoArgs (Some (js "openai")) None
                             (Some (js "out.md"))))))
    by (left; reflexivity).
  apply (proj1 (generate_write_prompt _ _ _ _ H)).
Defined.

(** X27: [--write-prompt] without a path makes the command fail once the
    prompt has been evaluated, and no file is written. *)
Theorem generate_write_prompt_without_path (env : Env) (args : Args.t) :
  Args.writePrompt args = Some [] ->
  result (generate env args)
  = match result (prepare env args) with
    | Done _ =>
        Raise {| error_message :=
                   js "Specify a file path for the --write-prompt parameter." |}
    | Raise e => Raise e
    end
  /\ forall path text,
       ~ In (WriteToFile path text) (trace (generate env args)).
Proof.
  intros Hw. split.
  - rewrite generate_result.
    destruct (result (prepare env args)) as [p|e]; [|reflexivity].
    unfold deliver. cbv zeta.
    rewrite eff_result_bind, debug_lines_result.
    unfold promptOnly. rewrite Hw, orb_true_r.
    rewrite eff_result_bind, eff_result_when by reflexivity.
    reflexivity.
  - intros path text H. apply generate_calls in H.
    destruct H as [H | (p & _ & Hw' & Hne & _)]; [discriminate H|].
    apply Hne. congruence.
Qed.

Lemma generate_write_prompt_without_path_witness :
  result (generate (demoEnv (Done oneFile))
            (demoArgs (Some (js "openai")) None (Some [])))
  = Raise {| error_message :=
               js "Specify a file path for the --write-prompt parameter." |}.
Proof.
  apply (proj1 (generate_write_prompt_without_path (demoEnv (Done oneFile))
                  (demoArgs (Some (js "openai")) None (Some [])) eq_refl)).
Defined.

(** X28: any api but [openai], a missing one included, makes the command
    fail once the prompt has been evaluated, unless only the prompt was
    asked for; no completion is requested. *)
Theorem generate_invalid_api (env : Env) (args : Args.t) :
  toBoolean (Args.printPrompt args) = false ->
  Args.writePrompt args = None ->
  Args.api args <> Some (js "openai") ->
  result (generate env args)
  = match result (prepare env args) with
    | Done _ =>
        Raise {| error_message :=
          js "Invalid API specified. Only 'openai' is supported currently." |}
    | Raise e => Raise e
    end
  /\ forall prompt model maxTokens debug,
       ~ In (Completion prompt model maxTokens debug)
           (trace (generate env args)).
Proof.
  intros Hprint Hwrite Hapi.
  assert (Hpo : promptOnly args = false)
    by (apply promptOnly_false; auto).
  assert (Hno : notOpenai (Args.api args) = true).
  { destruct (notOpenai (Args.api args)) eqn:E; [reflexivity|].
    apply notOpenai_false in E. contradiction. }
  split.
  - rewrite generate_result.
    destruct (result (prepare env args)) as [p|e]; [|reflexivity].
    unfold deliver. cbv zeta.
    rewrite eff_result_bind, debug_lines_result, Hpo, Hno. reflexivity.
  - intros prompt model maxTokens debug H. apply generate_calls in H.
    destruct H as [H | (p & _ & _ & Hapi' & _)]; [discriminate H|].
    congruence.
Qed.

Lemma generate_invalid_api_witness :
  result (generate (demoEnv (Done oneFile)) (demoArgs None None None))
  = Raise {| error_message :=
       js "Invalid API specified. Only 'openai' is supported currently." |}.
Proof.
  apply (proj1 (generate_invalid_api (demoEnv (Done oneFile))
                  (demoArgs None None None) eq_refl eq_refl
                  ltac:(discriminate))).
Defined.

(** The console lines for the files of a completion that is not written
    to disk: a header, a line of dashes as long as the header, the contents,
    an empty line. *)
Lemma printFiles_run (files : list GeneratedFile) :
  result (forEach files printFile) = Done tt
  /\ trace (forEach files printFile)
     = flat_map
         (fun f =>
            [ WriteToConsole (Some (js "FILE: " ++ file_name f));
              WriteToConsole
                (Some (repeat 45%N (length (js "FILE: " ++ file_name f))));
              WriteToConsole (Some (file_contents f));
              WriteToConsole None ])
         files.
Proof.
  induction files as [|f files [IHr IHt]]; [split; reflexivity|].
  cbn [forEach flat_map]. rewrite eff_result_bind, eff_trace_bind. split.
  - exact IHr.
  - rewrite IHt. reflexivity.
Qed.

(** X10: with [--print-prompt] and no [--write-prompt] the command writes
    the evaluated prompt to the console (after the two debug lines, if any)
    and returns; it does nothing else. *)
Theorem generate_print_prompt (env : Env) (args : Args.t) (p : Prepared) :
  toBoolean (Args.printPrompt args) = true ->
  Args.writePrompt args = None ->
  result (prepare env args) = Done p ->
  result (generate env args) = Done tt
  /\ trace (generate env args)
     = trace (prepare env args)
       ++ (if toBoolean (Args.debug args)
           then [ WriteToConsole (Some (js "--- PROMPT ---"));
                  WriteToConsole (Some (evaluatedPrompt p)) ]
           else [])
       ++ [ WriteToConsole (Some (evaluatedPrompt p)) ].
Proof.
  intros Hprint Hwrite Hp. unfold generate.
  rewrite eff_result_bind, eff_trace_bind, Hp.
  unfold deliver, promptOnly. cbv zeta. rewrite Hprint, Hwrite. cbn [orb].
  split.
  - destruct (toBoolean (Args.debug args)); reflexivity.
  - f_equal. destruct (toBoolean (Args.debug args)); reflexivity.
Qed.

Lemma generate_print_prompt_witness :
  result (generate (demoEnv (Done oneFile)) printPromptArgs) = Done tt.
Proof.
  apply (proj1 (@generate_print_prompt (demoEnv (Done oneFile))
                  printPromptArgs demoPrepared eq_refl eq_refl eq_refl)).
Defined.

(** X29: a completion that returns files, without [--write]: the command
    returns after printing each file to the console in order (header,
    dashes as long as the header, contents, empty line), and writes
    nothing to disk. *)
Theorem generate_prints_files (env : Env) (args : Args.t) (p : Prepared)
    (files : list GeneratedFile) :
  result (prepare env args) = Done p ->
  toBoolean (Args.printPrompt args) = false ->
  Args.writePrompt args = None ->
  Args.api args = Some (js "openai") ->
  toBoolean (Args.write args) = false ->
  openaiCompletion env (evaluatedPrompt p) (chooseModel args p)
    (chooseMaxTokens args p) (Args.debug args) = Done (Files files) ->
  result (generate env args) = Done tt
  /\ trace (generate env args)
     = trace (prepare env args)
       ++ (if toBoolean (Args.debug args)
           then [ WriteToConsole (Some (js "--- PROMPT ---"));
                  WriteToConsole (Some (evaluatedPrompt p)) ]
           else [])
       ++ Completion (evaluatedPrompt p) (chooseModel args p)
            (chooseMaxTokens args p) (Args.debug args)
       :: flat_map
            (fun f =>
               [ WriteToConsole (Some (js "FILE: " ++ file_name f));
                 WriteToConsole
                   (Some (repeat 45%N (length (js "FILE: " ++ file_name f))));
                 WriteToConsole (Some (file_contents f));
                 WriteToConsole None ])
            files.
Proof.
  intros Hp Hprint Hwrite Hapi Hw R.
  assert (Hpo : promptOnly args = false) by (apply promptOnly_false; auto).
  assert (Hno : notOpenai (Args.api args) = false)
    by (apply notOpenai_false, Hapi).
  destruct (printFiles_run files) as [Pr Pt].
  split.
  - rewrite generate_result, Hp,
      (deliver_result_requested env args p Hpo Hno), R, Hw.
    exact Pr.
  - unfold generate. rewrite eff_trace_bind, Hp. f_equal.
    unfold deliver. cbv zeta.
    rewrite eff_trace_bind, debug_lines_result, Hpo, Hno.
    f_equal; [destruct (toBoolean (Args.debug args)); reflexivity|].
    rewrite eff_trace_bind, eff_result_emit, eff_trace_bind, eff_result_call, R,
      Hw, Pt.
    reflexivity.
Qed.

Lemma generate_prints_files_witness :
  result (generate (demoEnv (Done oneFile))
            (demoArgs (Some (js "openai")) None None))
  = Done tt.
Proof.
  apply (proj1 (@generate_prints_files (demoEnv (Done oneFile))
                  (demoArgs (Some (js "openai")) None None)
                  demoPrepared
                  [ {| file_name := js "f.ts";
                       file_contents := js "export {}" |} ]
                  eq_refl eq_refl eq_refl eq_refl eq_refl eq_refl)).
Defined.

End GenerateProofs.
